(** * signal_study: the signal generation and validation pipeline

    A shallow embedding of [run_signals.py]: the pip helpers
    ([get_pip_value], [calculate_pip_distance]), the quote-service symbol
    format ([format_symbol_for_twelvedata]), the entry validator
    ([validate_entry_price]), the retry loop of [call_model_structured]
    with its field filling, and the part of [main] that writes a
    validation back onto a record.  Further on: [render_prompt], the
    symbols selected from the environment, [safe_read_text] and the two
    loops of [main], and from the reports of [run_signals.py] and
    [generate_all_reports.py] the signal counters, the grouping by date and
    the order of the rows.

    Modelling choices, fixed once for the whole development:
    - a Python [float] is an IEEE 754 binary64 value, [spec_float] with
      precision 53 and maximal exponent 1024; arithmetic is the correctly
      rounded arithmetic of [SpecFloat];
    - a decimal literal of the source ([0.0100], [10.00], [0.7]) is the
      binary64 value nearest to it;
    - a symbol is an ASCII string: [len], slicing and [in] are those of
      [string], and [str.upper] maps the letters a..z;
    - a response of the model is a record with the fields that
      SIGNAL_SCHEMA makes required, numbers being floats;
    - an f-string is kept as the list of its pieces, each interpolated
      float carrying its format. *)

From Stdlib Require Import ZArith Bool List String Ascii Lia.
From Stdlib Require Import SpecFloat DecimalString.
From Stdlib Require Import Sorting.Permutation Sorting.Sorted.
Import ListNotations.

Local Open Scope Z_scope.
Local Open Scope string_scope.

(** ** Python floats *)

Module PyFloat.

Definition prec : Z := 53.
Definition emax : Z := 1024.

Definition t : Type := spec_float.

Definition add : t -> t -> t := SFadd prec emax.
Definition sub : t -> t -> t := SFsub prec emax.
Definition mul : t -> t -> t := SFmul prec emax.
(** [/] on floats; the source only divides by a pip value, which is never
    zero, so ZeroDivisionError is not modelled. *)
Definition div : t -> t -> t := SFdiv prec emax.
Definition abs : t -> t := SFabs.
Definition ltb : t -> t -> bool := SFltb.
Definition leb : t -> t -> bool := SFleb.
Definition eqb : t -> t -> bool := SFeqb.

(** The binary64 value nearest to the fraction [n / d], sign [s]. *)
Definition of_ratio (s : bool) (n d : positive) : t :=
  div (S754_finite s n 0) (S754_finite false d 0).

(** [float(z)] for a Python int. *)
Definition of_Z (z : Z) : t :=
  match z with
  | Z0 => S754_zero false
  | Zpos p => of_ratio false p 1
  | Zneg p => of_ratio true p 1
  end.

(** Nearest integer to [n / d], ties to even; [0 <= n], [0 < d]. *)
Definition round_half_even (n d : Z) : Z :=
  let q := n / d in
  match (2 * (n mod d)) ?= d with
  | Lt => q
  | Gt => q + 1
  | Eq => if Z.even q then q else q + 1
  end.

(** [round(x, 2)]: the exact value of [x] is rounded to a multiple of
    1/100, ties to even, and the float nearest to that decimal is returned;
    infinities, NaN and zeros round to themselves. *)
Definition round2 (x : t) : t :=
  match x with
  | S754_finite s m e =>
      let hundredths :=
        round_half_even (100 * Zpos m * 2 ^ Z.max e 0) (2 ^ Z.max (- e) 0) in
      match hundredths with
      | Zpos h => of_ratio s h 100
      | _ => S754_zero s
      end
  | _ => x
  end.

End PyFloat.

Definition pyfloat : Type := PyFloat.t.

(** ** Python strings *)

(** [needle in hay]. *)
Fixpoint contains (needle hay : string) : bool :=
  prefix needle hay ||
  match hay with
  | EmptyString => false
  | String _ rest => contains needle rest
  end.

Definition upper_ascii (c : ascii) : ascii :=
  let n := nat_of_ascii c in
  if (97 <=? n)%nat && (n <=? 122)%nat then ascii_of_nat (n - 32) else c.

(** [s.upper()]. *)
Fixpoint upper (s : string) : string :=
  match s with
  | EmptyString => EmptyString
  | String c rest => String (upper_ascii c) (upper rest)
  end.

(** [s[:n]]. *)
Fixpoint slice_to (n : nat) (s : string) : string :=
  match n, s with
  | S k, String c rest => String c (slice_to k rest)
  | _, _ => EmptyString
  end.

(** [s[n:]]. *)
Fixpoint slice_from (n : nat) (s : string) : string :=
  match n, s with
  | S k, String _ rest => slice_from k rest
  | _, _ => s
  end.

(** [str(z)] for a Python int. *)
Definition str_of_int (z : Z) : string :=
  NilZero.string_of_int (Z.to_int z).

(** ** Pip helpers *)

Definition pip_jpy : pyfloat := PyFloat.of_ratio false 100 100.   (* 1.00 *)
Definition pip_gold : pyfloat := PyFloat.of_ratio false 1000 100. (* 10.00 *)
Definition pip_major : pyfloat := PyFloat.of_ratio false 100 10000. (* 0.0100 *)

(** The dictionary [pip_values] of the source is built and never read;
    only the substring tests decide. *)
Definition get_pip_value (symbol : string) : pyfloat :=
  if contains "JPY" symbol then pip_jpy
  else if contains "XAU" symbol || contains "GOLD" (upper symbol) then pip_gold
  else pip_major.

Definition calculate_pip_distance
  (entry current_price : option pyfloat) (symbol : string) : option pyfloat :=
  match entry, current_price with
  | Some entry, Some current_price =>
      let pip_value := get_pip_value symbol in
      let distance := PyFloat.abs (PyFloat.sub entry current_price) in
      let pips := PyFloat.div distance pip_value in
      Some (PyFloat.round2 pips)
  | _, _ => None
  end.

(** ** Symbol format of the quote service *)

Definition format_symbol_for_twelvedata (symbol : string) : string :=
  if String.eqb symbol "XAUUSD" then "XAU/USD"
  else if (String.length symbol =? 6)%nat
       then slice_to 3 symbol ++ "/" ++ slice_from 3 symbol
  else if contains "/" symbol then symbol
  else symbol.

(** ** Records *)

(** A response of the model, with the fields SIGNAL_SCHEMA requires. *)
Module Rec.
Record t := mk {
  symbol : string;
  timeframe : string;
  timestamp_utc : string;
  signal : string;
  confidence : pyfloat;
  entry : option pyfloat;
  stop : option pyfloat;
  targets : list pyfloat;
  rationale : string;
  invalidation : string;
  prompt_name : string;
  raw_notes : string;
  current_price : option pyfloat;
  entry_distance_pips : option pyfloat
}.
End Rec.

(** One piece of an f-string: literal text, [{x}] or [{x:.2f}]. *)
Inductive piece :=
| Lit (s : string)
| Repr (x : pyfloat)
| Fixed2 (x : pyfloat).

Definition fstring := list piece.

(** The dictionary [validation] built by the validator. *)
Module Val.
Record t := mk {
  valid : bool;
  original_signal : string;
  final_signal : string;
  violation_reason : option fstring;
  entry_distance_pips : option pyfloat;
  current_price : option pyfloat;
  warnings : list fstring
}.

Definition set_valid (b : bool) (v : t) : t :=
  mk b (original_signal v) (final_signal v) (violation_reason v)
     (entry_distance_pips v) (current_price v) (warnings v).
Definition set_final_signal (s : string) (v : t) : t :=
  mk (valid v) (original_signal v) s (violation_reason v)
     (entry_distance_pips v) (current_price v) (warnings v).
Definition set_violation_reason (r : option fstring) (v : t) : t :=
  mk (valid v) (original_signal v) (final_signal v) r
     (entry_distance_pips v) (current_price v) (warnings v).
Definition set_entry_distance_pips (d : option pyfloat) (v : t) : t :=
  mk (valid v) (original_signal v) (final_signal v) (violation_reason v)
     d (current_price v) (warnings v).
(** [validation["warnings"].append(w)]. *)
Definition append_warning (w : fstring) (v : t) : t :=
  mk (valid v) (original_signal v) (final_signal v) (violation_reason v)
     (entry_distance_pips v) (current_price v) (warnings v ++ [w]).
End Val.

(** ** EntryValidator *)

Definition HOLD : string := "HOLD".

Definition msg_no_price : fstring :=
  [Lit "No current price available for validation"].
Definition msg_null_entry_reason : fstring :=
  [Lit "Entry price is null but signal is not HOLD"].
Definition msg_null_entry_warning : fstring :=
  [Lit "Entry price is null - forcing HOLD"].
Definition msg_too_far_reason (entry pip_distance current_price : pyfloat) : fstring :=
  [Lit "Entry price ("; Repr entry; Lit ") is "; Fixed2 pip_distance;
   Lit " pips away from current price ("; Repr current_price;
   Lit "), exceeding 100 pip limit"].
Definition msg_too_far_warning (pip_distance : pyfloat) : fstring :=
  [Lit "Entry too far from current price: "; Fixed2 pip_distance;
   Lit " pips (max 100)"].
Definition msg_non_positive_reason (entry : pyfloat) : fstring :=
  [Lit "Entry price ("; Repr entry; Lit ") is unrealistic (non-positive)"].
Definition msg_non_positive_warning : fstring :=
  [Lit "Entry price is non-positive - forcing HOLD"].

(** The second operand of [pip_distance is not None and pip_distance > 100]. *)
Definition over_100 (pip_distance : pyfloat) : bool :=
  PyFloat.ltb (PyFloat.of_Z 100) pip_distance.

(** The test [entry <= 0]. *)
Definition non_positive (entry : pyfloat) : bool :=
  PyFloat.leb entry (PyFloat.of_Z 0).

(** The statement [if pip_distance is not None and pip_distance > 100: ...]. *)
Definition check_too_far (entry current_price : pyfloat)
  (pip_distance : option pyfloat) (v : Val.t) : Val.t :=
  match pip_distance with
  | Some d =>
      if over_100 d then
        Val.append_warning (msg_too_far_warning d)
          (Val.set_violation_reason (Some (msg_too_far_reason entry d current_price))
             (Val.set_final_signal HOLD (Val.set_valid false v)))
      else v
  | None => v
  end.

(** The statement [if entry <= 0: ...]. *)
Definition check_non_positive (entry : pyfloat) (v : Val.t) : Val.t :=
  if non_positive entry then
    Val.append_warning msg_non_positive_warning
      (Val.set_violation_reason (Some (msg_non_positive_reason entry))
         (Val.set_final_signal HOLD (Val.set_valid false v)))
  else v.

Definition validate_entry_price
  (result : Rec.t) (current_price : option pyfloat) (symbol : string) : Val.t :=
  let validation :=
    Val.mk true (Rec.signal result) (Rec.signal result) None None current_price [] in
  if String.eqb (Rec.signal result) HOLD then
    Val.set_entry_distance_pips None validation
  else
    match current_price with
    | None =>
        Val.set_entry_distance_pips None (Val.append_warning msg_no_price validation)
    | Some price =>
        match Rec.entry result with
        | None =>
            Val.append_warning msg_null_entry_warning
              (Val.set_violation_reason (Some msg_null_entry_reason)
                 (Val.set_final_signal HOLD (Val.set_valid false validation)))
        | Some entry =>
            let pip_distance :=
              calculate_pip_distance (Some entry) current_price symbol in
            let validation := Val.set_entry_distance_pips pip_distance validation in
            let validation := check_too_far entry price pip_distance validation in
            let validation := check_non_positive entry validation in
            validation
        end
    end.

(** ** SignalRequester *)

(** [a or b] on strings: the empty string is the only falsy one. *)
Definition str_or (a b : string) : string :=
  match a with
  | EmptyString => b
  | _ => a
  end.

(** The assignments made on a parsed response before it is returned. *)
Definition fill_fields (data : Rec.t)
  (prompt_name symbol timeframe timestamp_utc notes : string)
  (current_price : option pyfloat) : Rec.t :=
  Rec.mk
    (str_or (Rec.symbol data) symbol)
    (str_or (Rec.timeframe data) timeframe)
    (str_or (Rec.timestamp_utc data) timestamp_utc)
    (Rec.signal data)
    (Rec.confidence data)
    (Rec.entry data)
    (Rec.stop data)
    (Rec.targets data)
    (Rec.rationale data)
    (Rec.invalidation data)
    prompt_name
    (str_or (Rec.raw_notes data) notes)
    current_price
    (calculate_pip_distance (Rec.entry data) current_price symbol).

(** A Python exception: [type(e).__name__] and [str(e)]. *)
Record exn := mk_exn { exc_type : string; exc_msg : string }.

(** What [json.loads] makes of the content of a response. *)
Inductive content :=
| Malformed (msg : string)
| Structured (data : Rec.t).

(** One call of [client.chat.completions.create]: it raises, or answers
    with no usable content ([None]) or with some content. *)
Inductive reply :=
| ApiError (e : exn)
| Response (c : option content).

Inductive event :=
| Printed (line : string)
| Slept (seconds : pyfloat).

(** The part of the world the requester touches: how many calls and random
    draws were made, and what was printed and slept, oldest first. *)
Record World := mk_world {
  calls : nat;
  draws : nat;
  trace : list event
}.

Inductive result (A : Type) :=
| Ok (a : A)
| Raise (e : exn).
Arguments Ok {A} a.
Arguments Raise {A} e.

Definition M (A : Type) : Type := World -> result A * World.

Definition ret {A} (a : A) : M A := fun w => (Ok a, w).
Definition raise {A} (e : exn) : M A := fun w => (Raise e, w).
Definition bind {A B} (m : M A) (k : A -> M B) : M B :=
  fun w =>
    match m w with
    | (Ok a, w') => k a w'
    | (Raise e, w') => (Raise e, w')
    end.
(** [try: body except Exception as e: handler]. *)
Definition try_except {A} (body : M A) (handler : exn -> M A) : M A :=
  fun w =>
    match body w with
    | (Ok a, w') => (Ok a, w')
    | (Raise e, w') => handler e w'
    end.

Notation "x <- m ;; k" := (bind m (fun x => k))
  (at level 61, m at next level, right associativity).
Notation "m ;;; k" := (bind m (fun _ => k))
  (at level 61, right associativity).

Definition print (line : string) : M unit :=
  fun w => (Ok tt, mk_world (calls w) (draws w) (trace w ++ [Printed line])).
Definition time_sleep (seconds : pyfloat) : M unit :=
  fun w => (Ok tt, mk_world (calls w) (draws w) (trace w ++ [Slept seconds])).

(** [range(n)]. *)
Definition py_range (n : Z) : list Z := map Z.of_nat (seq 0 (Z.to_nat n)).

Definition str_of_last_err (last_err : option string) : string :=
  match last_err with
  | Some e => e
  | None => "None"
  end.

Section Requester.

(** The replies of the model service, by call number, and the values of
    [random.random()], by draw number. *)
Variable api : nat -> reply.
Variable rng : nat -> pyfloat.

Definition chat_completions_create : M (option content) :=
  fun w =>
    let w' := mk_world (S (calls w)) (draws w) (trace w) in
    match api (calls w) with
    | ApiError e => (Raise e, w')
    | Response c => (Ok c, w')
    end.

Definition random_random : M pyfloat :=
  fun w => (Ok (rng (draws w)), mk_world (calls w) (S (draws w)) (trace w)).

(** [random.uniform(a, b)] is [a + (b - a) * random()]. *)
Definition random_uniform (a b : pyfloat) : M pyfloat :=
  u <- random_random ;;
  ret (PyFloat.add a (PyFloat.mul (PyFloat.sub b a) u)).

Definition backoff_cap : Z := 30.

Definition backoff_base (attempt : Z) : Z := Z.min (2 ^ attempt) backoff_cap.

Definition backoff_sleep (attempt : Z) : M unit :=
  let base := backoff_base attempt in
  jitter <- random_uniform (PyFloat.of_Z 0) (PyFloat.of_ratio false 7 10) ;;
  time_sleep (PyFloat.add (PyFloat.of_Z base) jitter).

Definition json_loads (c : content) : M Rec.t :=
  match c with
  | Malformed msg => raise (mk_exn "JSONDecodeError" msg)
  | Structured data => ret data
  end.

Section Call.

Variables prompt_name symbol timeframe timestamp_utc notes : string.
Variable current_price : option pyfloat.
Variable max_retries : Z.

(** The body of the [try] block. *)
Definition attempt_once : M Rec.t :=
  response <- chat_completions_create ;;
  match response with
  | None => raise (mk_exn "ValueError" "Empty response from OpenAI API")
  | Some c =>
      data <- json_loads c ;;
      ret (fill_fields data prompt_name symbol timeframe timestamp_utc notes
             current_price)
  end.

(** The [for attempt in range(max_retries)] loop and the [raise] after it. *)
Fixpoint retry_loop (attempts : list Z) (last_err : option string) : M Rec.t :=
  match attempts with
  | [] =>
      raise (mk_exn "RuntimeError"
               ("OpenAI call failed after " ++ str_of_int max_retries ++
                " attempts. Last error: " ++ str_of_last_err last_err))
  | attempt :: rest =>
      try_except attempt_once
        (fun e =>
           let last_err := exc_type e ++ ": " ++ exc_msg e in
           print ("Attempt " ++ str_of_int (attempt + 1) ++ "/" ++
                  str_of_int max_retries ++ " failed: " ++ last_err) ;;;
           (if (attempt <? max_retries - 1)%Z then backoff_sleep attempt else ret tt) ;;;
           retry_loop rest (Some last_err))
  end.

(** The system and user messages are the same at every attempt and are not
    modelled: the replies are given by call number.  The statements before
    the loop, which format the date and the price timestamp, are outside
    this model as well. *)
Definition call_model_structured : M Rec.t :=
  retry_loop (py_range max_retries) None.

End Call.
End Requester.

(** ** The orchestrator's use of a validation *)

(** A persisted result: the record and the keys [main] adds to it. *)
Module Out.
Record t := mk {
  record : Rec.t;
  validation : option Val.t;
  original_signal : option string
}.
End Out.

Definition set_signal (s : string) (r : Rec.t) : Rec.t :=
  Rec.mk (Rec.symbol r) (Rec.timeframe r) (Rec.timestamp_utc r) s
    (Rec.confidence r) (Rec.entry r) (Rec.stop r) (Rec.targets r)
    (Rec.rationale r) (Rec.invalidation r) (Rec.prompt_name r)
    (Rec.raw_notes r) (Rec.current_price r) (Rec.entry_distance_pips r).

(** The branch [if not validation["valid"]: ... else: ...] of [main]. *)
Definition apply_validation (result : Rec.t) (validation : Val.t) : Out.t :=
  if negb (Val.valid validation) then
    Out.mk (set_signal (Val.final_signal validation) result)
      (Some validation) (Some (Val.original_signal validation))
  else
    Out.mk result (Some validation) None.

(** One (symbol, prompt) pair after a structured response [data]: the
    requester fills the fields, the validator runs, [main] applies it. *)
Definition pipeline (data : Rec.t)
  (prompt_name symbol timeframe timestamp_utc notes : string)
  (current_price : option pyfloat) : Out.t :=
  let result :=
    fill_fields data prompt_name symbol timeframe timestamp_utc notes current_price in
  apply_validation result (validate_entry_price result current_price symbol).

(** * Properties *)

(** ** Pip values *)

Definition float_1_00 : pyfloat := S754_finite false 4503599627370496 (-52).
Definition float_10_00 : pyfloat := S754_finite false 5629499534213120 (-49).
Definition float_0_01 : pyfloat := S754_finite false 5764607523034235 (-59).

(** The three constants are the binary64 values of 1.00, 10.00 and 0.01:
    1 = 2^52 * 2^-52, 10 = 5 * 2^50 * 2^-49, and 0.01 lies between
    5764607523034234 * 2^-59 and 5764607523034236 * 2^-59, nearest to the
    middle one. *)
Lemma pip_constants :
  pip_jpy = float_1_00 /\ pip_gold = float_10_00 /\ pip_major = float_0_01.
Proof. repeat split; vm_compute; reflexivity. Qed.

Lemma float_0_01_brackets :
  (2 * 5764607523034235 - 1) * 100 < 2 * 2 ^ 59 < (2 * 5764607523034235 + 1) * 100.
Proof. vm_compute. split; reflexivity. Qed.

Lemma get_pip_value_jpy symbol :
  contains "JPY" symbol = true -> get_pip_value symbol = pip_jpy.
Proof. unfold get_pip_value. intros ->. reflexivity. Qed.

Lemma get_pip_value_gold symbol :
  contains "JPY" symbol = false ->
  contains "XAU" symbol = true \/ contains "GOLD" (upper symbol) = true ->
  get_pip_value symbol = pip_gold.
Proof.
  unfold get_pip_value. intros -> [H | H]; rewrite H.
  - reflexivity.
  - rewrite orb_true_r. reflexivity.
Qed.

Lemma get_pip_value_major symbol :
  contains "JPY" symbol = false ->
  contains "XAU" symbol = false ->
  contains "GOLD" (upper symbol) = false ->
  get_pip_value symbol = pip_major.
Proof. unfold get_pip_value. intros -> -> ->. reflexivity. Qed.

Lemma get_pip_value_range symbol :
  get_pip_value symbol = pip_jpy \/
  get_pip_value symbol = pip_gold \/
  get_pip_value symbol = pip_major.
Proof.
  unfold get_pip_value.
  destruct (contains "JPY" symbol); [now left|].
  destruct (contains "XAU" symbol || contains "GOLD" (upper symbol));
    [right; now left | right; now right].
Qed.

Lemma get_pip_value_positive symbol :
  PyFloat.ltb (PyFloat.of_Z 0) (get_pip_value symbol) = true.
Proof.
  destruct (get_pip_value_range symbol) as [-> | [-> | ->]]; vm_compute; reflexivity.
Qed.

(** Upper-casing keeps an upper-case needle that is already there. *)
Lemma prefix_GOLD_upper s :
  prefix "GOLD" s = true -> prefix "GOLD" (upper s) = true.
Proof.
  intro H.
  destruct s as [|c1 [|c2 [|c3 [|c4 s]]]]; simpl in H;
    repeat match type of H with
           | (if ?d then _ else _) = true => destruct d as [<- |]; try discriminate
           end; try discriminate.
  destruct s; reflexivity.
Qed.

Lemma contains_GOLD_upper s :
  contains "GOLD" s = true -> contains "GOLD" (upper s) = true.
Proof.
  induction s as [|c s IH].
  - discriminate.
  - cbn [contains upper]. intro H. apply orb_true_iff in H as [H | H].
    + apply (prefix_GOLD_upper (String c s)) in H. cbn [upper] in H.
      rewrite H. reflexivity.
    + rewrite (IH H). apply orb_true_r.
Qed.

(** ** Rounding to two decimals *)

(** The words "rounded to 2 decimal places", as a relation: [y] is the
    float nearest to [h / 100] for an integer [h] at most half a hundredth
    away from the exact value [m * 2^e] of [x]. *)
Definition rounded_to_hundredths (x y : pyfloat) : Prop :=
  match x with
  | S754_finite s m e =>
      exists h : Z,
        0 <= h /\
        Z.abs (2 * (100 * Zpos m * 2 ^ Z.max e 0) - 2 * h * 2 ^ Z.max (- e) 0)
          <= 2 ^ Z.max (- e) 0 /\
        y = match h with
            | Zpos p => PyFloat.of_ratio s p 100
            | _ => S754_zero s
            end
  | _ => y = x
  end.

Lemma round_half_even_near n d :
  0 <= n -> 0 < d ->
  0 <= PyFloat.round_half_even n d /\
  Z.abs (2 * n - 2 * PyFloat.round_half_even n d * d) <= d.
Proof.
  intros Hn Hd. unfold PyFloat.round_half_even.
  pose proof (Z.div_mod n d ltac:(lia)) as Hdm.
  pose proof (Z.mod_pos_bound n d Hd) as Hm.
  assert (0 <= n / d) by (apply Z.div_pos; lia).
  destruct (Z.compare_spec (2 * (n mod d)) d) as [E | E | E].
  - destruct (Z.even (n / d)); split; nia.
  - split; nia.
  - split; nia.
Qed.

Lemma round2_rounds x : rounded_to_hundredths x (PyFloat.round2 x).
Proof.
  destruct x as [s | s | | s m e]; try reflexivity.
  cbn [rounded_to_hundredths PyFloat.round2].
  set (n := 100 * Zpos m * 2 ^ Z.max e 0).
  set (d := 2 ^ Z.max (- e) 0).
  assert (Hd : 0 < d) by (apply Z.pow_pos_nonneg; lia).
  assert (Hn : 0 <= n).
  { unfold n. assert (0 < 2 ^ Z.max e 0) by (apply Z.pow_pos_nonneg; lia). nia. }
  destruct (round_half_even_near n d Hn Hd) as [H0 H1].
  exists (PyFloat.round_half_even n d). repeat split; assumption.
Qed.

(** ** C2 *)

(** The lookup as the claim words it: each of the three clauses on its
    own, with "GOLD" as written. *)
Definition pip_lookup_as_specified (symbol : string) : Prop :=
  (contains "JPY" symbol = true -> get_pip_value symbol = float_1_00) /\
  (contains "XAU" symbol = true \/ contains "GOLD" symbol = true ->
   get_pip_value symbol = float_10_00) /\
  (contains "JPY" symbol = false -> contains "XAU" symbol = false ->
   contains "GOLD" symbol = false -> get_pip_value symbol = float_0_01).

(** C2, counterexample: "XAUJPY" contains "XAU" and yields 1.00, and
    "gold" contains none of "JPY", "XAU", "GOLD" and yields 10.00. *)
Lemma pip_lookup_as_specified_fails :
  ~ pip_lookup_as_specified "XAUJPY" /\ ~ pip_lookup_as_specified "gold".
Proof.
  split.
  - intros (_ & H & _). specialize (H (or_introl eq_refl)). vm_compute in H.
    discriminate H.
  - intros (_ & _ & H). specialize (H eq_refl eq_refl eq_refl). vm_compute in H.
    discriminate H.
Qed.

(** C2, amended: for a non-null entry and reference price the pip distance
    is |entry - price| / pipValue(symbol) rounded to two decimals; pipValue
    is positive, 1.00 for a symbol containing "JPY", 10.00 for a symbol
    without "JPY" that contains "XAU" or, in any letter case, "GOLD", and
    0.01 for every remaining symbol. *)
Theorem pip_distance_formula (entry price : pyfloat) (symbol : string) :
  let pips := PyFloat.div (PyFloat.abs (PyFloat.sub entry price)) (get_pip_value symbol) in
  calculate_pip_distance (Some entry) (Some price) symbol = Some (PyFloat.round2 pips) /\
  rounded_to_hundredths pips (PyFloat.round2 pips) /\
  PyFloat.ltb (PyFloat.of_Z 0) (get_pip_value symbol) = true /\
  (contains "JPY" symbol = true -> get_pip_value symbol = float_1_00) /\
  (contains "JPY" symbol = false ->
   contains "XAU" symbol = true \/ contains "GOLD" (upper symbol) = true ->
   get_pip_value symbol = float_10_00) /\
  (contains "JPY" symbol = false -> contains "XAU" symbol = false ->
   contains "GOLD" (upper symbol) = false -> get_pip_value symbol = float_0_01).
Proof.
  destruct pip_constants as (J & G & M).
  cbv zeta. split; [reflexivity|].
  split; [apply round2_rounds|].
  split; [apply get_pip_value_positive|].
  rewrite <- J, <- G, <- M.
  split; [apply get_pip_value_jpy|].
  split; [apply get_pip_value_gold | apply get_pip_value_major].
Qed.

Lemma pip_distance_formula_witness :
  let symbol := "XAUUSD" in
  contains "JPY" symbol = false /\
  (contains "XAU" symbol = true \/ contains "GOLD" (upper symbol) = true) /\
  get_pip_value symbol = float_10_00.
Proof.
  cbv zeta.
  split; [reflexivity|]. split; [left; reflexivity|].
  destruct (pip_distance_formula (PyFloat.of_Z 2000) (PyFloat.of_Z 1990) "XAUUSD")
    as (_ & _ & _ & _ & Hgold & _).
  apply Hgold; [reflexivity | left; reflexivity].
Defined.

(** ** C10 *)

(** C10: the "JPY" test comes first, so a symbol with "JPY" yields 1.00
    even when it contains "XAU"; without "JPY", a symbol with "XAU" as
    written, or with "GOLD" in any letter case, yields 10.00, and every
    other symbol, "xauusd" among them, yields 0.01; "JPY" and "XAU" are
    matched as written; the value is 1.00, 10.00 or 0.01. *)
Theorem pip_value_precedence_and_case (symbol : string) :
  (contains "JPY" symbol = true -> get_pip_value symbol = float_1_00) /\
  get_pip_value "XAUJPY" = float_1_00 /\
  get_pip_value "xauusd" = float_0_01 /\
  get_pip_value "audjpy" = float_0_01 /\
  get_pip_value "Gold" = float_10_00 /\
  (contains "JPY" symbol = false -> contains "GOLD" (upper symbol) = true ->
   get_pip_value symbol = float_10_00) /\
  (get_pip_value symbol = float_1_00 \/
   get_pip_value symbol = float_10_00 \/
   get_pip_value symbol = float_0_01) /\
  (contains "JPY" symbol = false -> contains "XAU" symbol = true ->
   get_pip_value symbol = float_10_00) /\
  get_pip_value "XAUUSD" = float_10_00 /\
  get_pip_value "Xauusd" = float_0_01 /\
  (contains "JPY" symbol = false -> contains "XAU" symbol = false ->
   contains "GOLD" (upper symbol) = false -> get_pip_value symbol = float_0_01).
Proof.
  destruct pip_constants as (J & G & M).
  split; [rewrite <- J; apply get_pip_value_jpy|].
  do 4 (split; [vm_compute; reflexivity|]).
  split; [intros HJ HG; rewrite <- G; apply get_pip_value_gold; auto|].
  split; [rewrite <- J, <- G, <- M; apply get_pip_value_range|].
  split; [intros HJ HX; rewrite <- G; apply get_pip_value_gold; auto|].
  do 2 (split; [vm_compute; reflexivity|]).
  rewrite <- M. apply get_pip_value_major.
Qed.

Lemma pip_value_precedence_and_case_witness :
  contains "JPY" "GOLDJPY" = true /\ get_pip_value "GOLDJPY" = float_1_00 /\
  contains "XAU" "XAUEUR" = true /\ get_pip_value "XAUEUR" = float_10_00 /\
  get_pip_value "EURGBP" = float_0_01.
Proof.
  destruct (pip_value_precedence_and_case "GOLDJPY") as (Hjpy & _).
  destruct (pip_value_precedence_and_case "XAUEUR")
    as (_ & _ & _ & _ & _ & _ & _ & Hxau & _).
  destruct (pip_value_precedence_and_case "EURGBP")
    as (_ & _ & _ & _ & _ & _ & _ & _ & _ & _ & Hother).
  split; [reflexivity|]. split; [exact (Hjpy eq_refl)|].
  split; [reflexivity|]. split; [exact (Hxau eq_refl eq_refl)|].
  exact (Hother eq_refl eq_refl eq_refl).
Defined.

(** ** The validator, branch by branch *)

Definition set_entry (e : option pyfloat) (r : Rec.t) : Rec.t :=
  Rec.mk (Rec.symbol r) (Rec.timeframe r) (Rec.timestamp_utc r) (Rec.signal r)
    (Rec.confidence r) e (Rec.stop r) (Rec.targets r)
    (Rec.rationale r) (Rec.invalidation r) (Rec.prompt_name r)
    (Rec.raw_notes r) (Rec.current_price r) (Rec.entry_distance_pips r).

Lemma validate_hold result current_price symbol :
  Rec.signal result = HOLD ->
  validate_entry_price result current_price symbol =
  Val.mk true HOLD HOLD None None current_price [].
Proof.
  intro H. unfold validate_entry_price. rewrite H. reflexivity.
Qed.

Lemma validate_no_price result symbol :
  Rec.signal result <> HOLD ->
  validate_entry_price result None symbol =
  Val.mk true (Rec.signal result) (Rec.signal result) None None None [msg_no_price].
Proof.
  intro H. unfold validate_entry_price.
  apply String.eqb_neq in H. rewrite H. reflexivity.
Qed.

Lemma validate_null_entry result price symbol :
  Rec.signal result <> HOLD ->
  Rec.entry result = None ->
  validate_entry_price result (Some price) symbol =
  Val.mk false (Rec.signal result) HOLD (Some msg_null_entry_reason) None
    (Some price) [msg_null_entry_warning].
Proof.
  intros H E. unfold validate_entry_price.
  apply String.eqb_neq in H. rewrite H, E. reflexivity.
Qed.

Lemma validate_checked result price symbol entry :
  Rec.signal result <> HOLD ->
  Rec.entry result = Some entry ->
  validate_entry_price result (Some price) symbol =
  let pip_distance := calculate_pip_distance (Some entry) (Some price) symbol in
  check_non_positive entry
    (check_too_far entry price pip_distance
       (Val.mk true (Rec.signal result) (Rec.signal result) None pip_distance
          (Some price) [])).
Proof.
  intros H E. unfold validate_entry_price.
  apply String.eqb_neq in H. rewrite H, E. reflexivity.
Qed.

(** Both checks leave [original_signal] alone and, when they change
    [valid], set [final_signal] to HOLD. *)
Definition override_consistent (original : string) (v : Val.t) : Prop :=
  Val.original_signal v = original /\
  (Val.valid v = false -> Val.final_signal v = HOLD).

Lemma check_too_far_consistent original entry price d v :
  override_consistent original v ->
  override_consistent original (check_too_far entry price d v).
Proof.
  intros [Ho Hv]. unfold check_too_far.
  destruct d as [d|]; [|split; assumption].
  destruct (over_100 d); split; auto.
Qed.

Lemma check_non_positive_consistent original entry v :
  override_consistent original v ->
  override_consistent original (check_non_positive entry v).
Proof.
  intros [Ho Hv]. unfold check_non_positive.
  destruct (non_positive entry); split; auto.
Qed.

Lemma validate_consistent result current_price symbol :
  override_consistent (Rec.signal result)
    (validate_entry_price result current_price symbol).
Proof.
  destruct (String.eqb_spec (Rec.signal result) HOLD) as [H | H].
  - rewrite (validate_hold _ _ _ H). split; [symmetry; exact H | discriminate].
  - destruct current_price as [price|].
    + destruct (Rec.entry result) as [entry|] eqn:E.
      * rewrite (validate_checked _ _ _ _ H E). cbv zeta.
        apply check_non_positive_consistent, check_too_far_consistent.
        split; [reflexivity | discriminate].
      * rewrite (validate_null_entry _ _ _ H E). split; reflexivity.
    + rewrite (validate_no_price _ _ H). split; [reflexivity | discriminate].
Qed.

Lemma validate_invalid_not_hold result current_price symbol :
  Val.valid (validate_entry_price result current_price symbol) = false ->
  Rec.signal result <> HOLD.
Proof.
  intros Hv H. rewrite (validate_hold _ _ _ H) in Hv. discriminate.
Qed.

(** ** C4 *)

(** C4: whenever the validator returns valid = false, final_signal is
    "HOLD" and, the original signal then not being "HOLD", differs from
    original_signal; original_signal is always the signal received. *)
Theorem invalid_forces_hold
  (result : Rec.t) (current_price : option pyfloat) (symbol : string) :
  let v := validate_entry_price result current_price symbol in
  Val.original_signal v = Rec.signal result /\
  (Val.valid v = false ->
   Val.final_signal v = "HOLD" /\
   Val.original_signal v <> "HOLD" /\
   (Val.original_signal v <> "HOLD" -> Val.final_signal v <> Val.original_signal v)).
Proof.
  cbv zeta.
  destruct (validate_consistent result current_price symbol) as [Ho Hf].
  split; [exact Ho|].
  intro Hv. pose proof (validate_invalid_not_hold _ _ _ Hv) as Hn.
  specialize (Hf Hv). rewrite Ho, Hf.
  repeat split; auto.
Qed.

Lemma invalid_forces_hold_witness :
  let result :=
    Rec.mk "EURUSD" "5m" "" "SELL" (PyFloat.of_Z 1) None None [] "" "" "" "" None None in
  let v := validate_entry_price result (Some (PyFloat.of_ratio false 11 10)) "EURUSD" in
  Val.valid v = false /\ Val.final_signal v = "HOLD" /\ Val.original_signal v = "SELL".
Proof.
  cbv zeta.
  split; [reflexivity|].
  split.
  - apply invalid_forces_hold. reflexivity.
  - apply (invalid_forces_hold
             (Rec.mk "EURUSD" "5m" "" "SELL" (PyFloat.of_Z 1) None None [] "" "" "" "" None None)).
Defined.

(** ** C1 *)

Definition price_1_1200 : pyfloat := PyFloat.of_ratio false 11200 10000.
Definition price_1_1000 : pyfloat := PyFloat.of_ratio false 11000 10000.

(** C1, the code at the failing input: with entry 1.1200, reference price
    1.1000 and symbol "EURUSD" the pip distance is 2.0, not 200.0, and a
    BUY or SELL record stays valid with its signal and no reason. *)
Theorem scenario_B_passes_validation (r : Rec.t) :
  calculate_pip_distance (Some price_1_1200) (Some price_1_1000) "EURUSD" =
    Some (PyFloat.of_Z 2) /\
  validate_entry_price (set_signal "BUY" (set_entry (Some price_1_1200) r))
    (Some price_1_1000) "EURUSD" =
    Val.mk true "BUY" "BUY" None (Some (PyFloat.of_Z 2)) (Some price_1_1000) [] /\
  validate_entry_price (set_signal "SELL" (set_entry (Some price_1_1200) r))
    (Some price_1_1000) "EURUSD" =
    Val.mk true "SELL" "SELL" None (Some (PyFloat.of_Z 2)) (Some price_1_1000) [].
Proof. repeat split; vm_compute; reflexivity. Qed.

(** Where the check starts to fire for "EURUSD": an entry of 2.1000
    against 1.1000 has distance 100.0 and passes, 2.1100 has 101.0 and is
    the first of these to be over 100. *)
Lemma eurusd_limit_is_one_unit :
  calculate_pip_distance (Some (PyFloat.of_ratio false 21000 10000))
    (Some price_1_1000) "EURUSD" = Some (PyFloat.of_Z 100) /\
  over_100 (PyFloat.of_Z 100) = false /\
  calculate_pip_distance (Some (PyFloat.of_ratio false 21100 10000))
    (Some price_1_1000) "EURUSD" = Some (PyFloat.of_Z 101) /\
  over_100 (PyFloat.of_Z 101) = true.
Proof. repeat split; vm_compute; reflexivity. Qed.

(** ** C3 *)

(** The claim as worded, at one input of the pipeline. *)
Definition hold_leaves_no_distance (data : Rec.t)
  (prompt_name symbol timeframe timestamp_utc notes : string)
  (current_price : option pyfloat) : Prop :=
  Rec.signal data = "HOLD" ->
  let out := pipeline data prompt_name symbol timeframe timestamp_utc notes current_price in
  Rec.entry_distance_pips (Out.record out) = None /\
  (forall v, Out.validation out = Some v -> Val.valid v = true).

Definition hold_at_market : Rec.t :=
  Rec.mk "EURUSD" "5m" "2026-01-05T10:00:00+00:00" "HOLD" (PyFloat.of_ratio false 1 2)
    (Some price_1_1000) None [] "no setup" "n/a" "" "" None None.

(** C3, counterexample: a HOLD response that still carries an entry, with
    a reference price present, leaves the pipeline with a distance of 0.0
    on the record. *)
Lemma hold_leaves_no_distance_fails :
  ~ hold_leaves_no_distance hold_at_market "prompt1" "EURUSD" "5m"
      "2026-01-05T10:00:00+00:00" "" (Some price_1_1000).
Proof.
  intro H. destruct (H eq_refl) as [H1 _]. vm_compute in H1. discriminate H1.
Qed.

(** C3, amended: for a record whose signal is HOLD the validation attached
    by the pipeline is valid, has entry_distance_pips null and keeps HOLD,
    and the signal of the record stays HOLD; the record's own
    entry_distance_pips is the distance the requester computed from the
    entry and the reference price. *)
Theorem hold_is_valid_without_distance (data : Rec.t)
  (prompt_name symbol timeframe timestamp_utc notes : string)
  (current_price : option pyfloat) :
  Rec.signal data = "HOLD" ->
  let out := pipeline data prompt_name symbol timeframe timestamp_utc notes current_price in
  Out.validation out = Some (Val.mk true "HOLD" "HOLD" None None current_price []) /\
  Out.original_signal out = None /\
  Rec.signal (Out.record out) = "HOLD" /\
  Rec.entry_distance_pips (Out.record out) =
    calculate_pip_distance (Rec.entry data) current_price symbol.
Proof.
  intro H. unfold pipeline. cbv zeta.
  set (result := fill_fields data prompt_name symbol timeframe timestamp_utc notes current_price).
  assert (Hr : Rec.signal result = HOLD) by exact H.
  rewrite (validate_hold result current_price symbol Hr).
  unfold apply_validation. cbn.
  repeat split. exact H.
Qed.

Lemma hold_is_valid_without_distance_witness :
  let out := pipeline hold_at_market "prompt1" "EURUSD" "5m"
               "2026-01-05T10:00:00+00:00" "" (Some price_1_1000) in
  Rec.signal hold_at_market = "HOLD" /\
  Out.validation out =
    Some (Val.mk true "HOLD" "HOLD" None None (Some price_1_1000) []) /\
  Rec.entry_distance_pips (Out.record out) = Some (PyFloat.of_Z 0).
Proof.
  cbv zeta.
  destruct (hold_is_valid_without_distance hold_at_market "prompt1" "EURUSD" "5m"
              "2026-01-05T10:00:00+00:00" "" (Some price_1_1000) eq_refl)
    as (Hv & _ & _ & Hd).
  split; [reflexivity|]. split; [exact Hv|].
  rewrite Hd. vm_compute. reflexivity.
Defined.

(** ** C5 *)

(** The claim as worded, at one record: without a reference price the
    record is valid, has no distance, one warning and its own signal, while
    the null-entry and non-positive-entry checks still give their verdict. *)
Definition no_price_only_skips_distance (result : Rec.t) (symbol : string) : Prop :=
  Rec.signal result <> "HOLD" ->
  let v := validate_entry_price result None symbol in
  Val.valid v = true /\
  Val.entry_distance_pips v = None /\
  List.length (Val.warnings v) = 1%nat /\
  Val.final_signal v = Rec.signal result /\
  (Rec.entry result = None ->
   Val.violation_reason v = Some msg_null_entry_reason) /\
  (forall entry, Rec.entry result = Some entry -> non_positive entry = true ->
   Val.violation_reason v = Some (msg_non_positive_reason entry)).

Definition buy_without_entry : Rec.t :=
  Rec.mk "EURUSD" "5m" "2026-01-05T10:00:00+00:00" "BUY" (PyFloat.of_ratio false 1 2)
    None None [] "breakout" "n/a" "" "" None None.

(** C5, counterexample: a BUY record with a null entry and no reference
    price returns before the null-entry check and carries no reason. *)
Lemma no_price_only_skips_distance_fails :
  ~ no_price_only_skips_distance buy_without_entry "EURUSD".
Proof.
  intro H. destruct (H ltac:(discriminate)) as (_ & _ & _ & _ & Hnull & _).
  specialize (Hnull eq_refl). vm_compute in Hnull. discriminate Hnull.
Qed.

(** C5, amended: for a record with a non-HOLD signal and no reference
    price the validator returns valid = true, entry_distance_pips null,
    exactly one warning, no reason and the signal unchanged, whatever the
    entry is: every later check is skipped. *)
Theorem no_price_skips_all_checks (result : Rec.t) (symbol : string) :
  Rec.signal result <> "HOLD" ->
  let v := validate_entry_price result None symbol in
  Val.valid v = true /\
  Val.entry_distance_pips v = None /\
  Val.warnings v = [msg_no_price] /\
  Val.violation_reason v = None /\
  Val.final_signal v = Rec.signal result /\
  Val.original_signal v = Rec.signal result /\
  (forall entry, validate_entry_price (set_entry entry result) None symbol = v).
Proof.
  intro H. cbv zeta. rewrite (validate_no_price result symbol H).
  repeat split. intro entry.
  apply (validate_no_price (set_entry entry result) symbol H).
Qed.

Lemma no_price_skips_all_checks_witness :
  let result := set_entry (Some (PyFloat.of_ratio false 10900 10000))
                  (set_signal "SELL" buy_without_entry) in
  let v := validate_entry_price result None "EURUSD" in
  Rec.signal result <> "HOLD" /\
  Val.valid v = true /\ Val.entry_distance_pips v = None /\
  Val.warnings v = [msg_no_price] /\ Val.final_signal v = "SELL".
Proof.
  cbv zeta.
  assert (Hs : Rec.signal (set_entry (Some (PyFloat.of_ratio false 10900 10000))
                             (set_signal "SELL" buy_without_entry)) <> "HOLD")
    by discriminate.
  destruct (no_price_skips_all_checks _ "EURUSD" Hs) as (Hv & Hd & Hw & _ & Hf & _).
  split; [exact Hs|]. split; [exact Hv|]. split; [exact Hd|].
  split; [exact Hw | exact Hf].
Defined.

(** ** C9 *)

(** C9: when the distance is over 100 and the entry is non-positive (signal
    not HOLD, reference price present), the reason is the one of the
    non-positive check, which runs last, and the warnings are the one of
    the distance check followed by the one of the non-positive check. *)
Theorem last_check_gives_reason
  (result : Rec.t) (price entry d : pyfloat) (symbol : string) :
  Rec.signal result <> "HOLD" ->
  Rec.entry result = Some entry ->
  calculate_pip_distance (Some entry) (Some price) symbol = Some d ->
  over_100 d = true ->
  non_positive entry = true ->
  let v := validate_entry_price result (Some price) symbol in
  Val.violation_reason v = Some (msg_non_positive_reason entry) /\
  Val.warnings v = [msg_too_far_warning d; msg_non_positive_warning] /\
  Val.valid v = false /\
  Val.final_signal v = "HOLD" /\
  Val.entry_distance_pips v = Some d.
Proof.
  intros Hs He Hd Hfar Hneg. cbv zeta.
  rewrite (validate_checked result price symbol entry Hs He). cbv zeta.
  rewrite Hd. unfold check_too_far, check_non_positive.
  rewrite Hfar, Hneg. repeat split.
Qed.

Lemma last_check_gives_reason_witness :
  let entry := PyFloat.of_ratio true 1 1 in
  let result := set_entry (Some entry) buy_without_entry in
  let v := validate_entry_price result (Some price_1_1000) "EURUSD" in
  Val.violation_reason v = Some (msg_non_positive_reason entry) /\
  Val.warnings v = [msg_too_far_warning (PyFloat.of_Z 210); msg_non_positive_warning].
Proof.
  cbv zeta.
  destruct (last_check_gives_reason
              (set_entry (Some (PyFloat.of_ratio true 1 1)) buy_without_entry)
              price_1_1000 (PyFloat.of_ratio true 1 1) (PyFloat.of_Z 210) "EURUSD")
    as (Hr & Hw & _).
  - discriminate.
  - reflexivity.
  - vm_compute. reflexivity.
  - vm_compute. reflexivity.
  - vm_compute. reflexivity.
  - split; [exact Hr | exact Hw].
Defined.

(** ** C8 *)

Lemma format_symbol_six symbol :
  String.length symbol = 6%nat ->
  format_symbol_for_twelvedata symbol =
  slice_to 3 symbol ++ "/" ++ slice_from 3 symbol.
Proof.
  intro H. unfold format_symbol_for_twelvedata.
  destruct (String.eqb_spec symbol "XAUUSD") as [-> | _]; [reflexivity|].
  rewrite H. reflexivity.
Qed.

Lemma format_symbol_other_length symbol :
  String.length symbol <> 6%nat ->
  format_symbol_for_twelvedata symbol = symbol.
Proof.
  intro H. unfold format_symbol_for_twelvedata.
  destruct (String.eqb_spec symbol "XAUUSD") as [-> | _]; [now elim H|].
  apply Nat.eqb_neq in H. rewrite H.
  destruct (contains "/" symbol); reflexivity.
Qed.

Lemma format_symbol_examples :
  format_symbol_for_twelvedata "EURUSD" = "EUR/USD" /\
  format_symbol_for_twelvedata "AUDJPY" = "AUD/JPY" /\
  format_symbol_for_twelvedata "XAUUSD" = "XAU/USD" /\
  format_symbol_for_twelvedata "EUR/USD" = "EUR/USD".
Proof. repeat split. Qed.

(** C8, the code at the failing input: "OP/USD" already has its slash and
    has six characters, so the length test, which comes before the slash
    test, splits it again. *)
Theorem slashed_six_chars_is_split_again :
  contains "/" "OP/USD" = true /\
  format_symbol_for_twelvedata "OP/USD" = "OP//USD" /\
  format_symbol_for_twelvedata "OP/USD" <> "OP/USD".
Proof. repeat split. discriminate. Qed.

(** ** Field filling *)

(** What the requester does to a parsed response [data] to obtain [r]. *)
Definition filled_from (data : Rec.t)
  (prompt_name symbol timeframe timestamp_utc notes : string)
  (current_price : option pyfloat) (r : Rec.t) : Prop :=
  Rec.prompt_name r = prompt_name /\
  Rec.current_price r = current_price /\
  Rec.symbol r = (if String.eqb (Rec.symbol data) "" then symbol else Rec.symbol data) /\
  Rec.timeframe r =
    (if String.eqb (Rec.timeframe data) "" then timeframe else Rec.timeframe data) /\
  Rec.timestamp_utc r =
    (if String.eqb (Rec.timestamp_utc data) "" then timestamp_utc
     else Rec.timestamp_utc data) /\
  Rec.raw_notes r =
    (if String.eqb (Rec.raw_notes data) "" then notes else Rec.raw_notes data) /\
  Rec.entry_distance_pips r =
    calculate_pip_distance (Rec.entry data) current_price symbol /\
  Rec.signal r = Rec.signal data /\
  Rec.confidence r = Rec.confidence data /\
  Rec.entry r = Rec.entry data /\
  Rec.stop r = Rec.stop data /\
  Rec.targets r = Rec.targets data /\
  Rec.rationale r = Rec.rationale data /\
  Rec.invalidation r = Rec.invalidation data.

Lemma str_or_empty a b : str_or a b = if String.eqb a "" then b else a.
Proof. destruct a; reflexivity. Qed.

Lemma fill_fields_frame (data : Rec.t)
  (prompt_name symbol timeframe timestamp_utc notes : string)
  (current_price : option pyfloat) :
  filled_from data prompt_name symbol timeframe timestamp_utc notes current_price
    (fill_fields data prompt_name symbol timeframe timestamp_utc notes current_price).
Proof.
  unfold filled_from, fill_fields.
  cbn [Rec.prompt_name Rec.current_price Rec.symbol Rec.timeframe
       Rec.timestamp_utc Rec.raw_notes Rec.entry_distance_pips Rec.signal
       Rec.confidence Rec.entry Rec.stop Rec.targets Rec.rationale
       Rec.invalidation].
  rewrite !str_or_empty. repeat split.
Qed.

(** ** The retry loop *)

(** The exception an attempt ends with, if the reply makes it fail. *)
Definition failure_of (r : reply) : option exn :=
  match r with
  | ApiError e => Some e
  | Response None => Some (mk_exn "ValueError" "Empty response from OpenAI API")
  | Response (Some (Malformed msg)) => Some (mk_exn "JSONDecodeError" msg)
  | Response (Some (Structured _)) => None
  end.

Definition err_string (e : exn) : string := exc_type e ++ ": " ++ exc_msg e.

Definition attempt_line (max_retries attempt : Z) (e : exn) : string :=
  "Attempt " ++ str_of_int (attempt + 1) ++ "/" ++ str_of_int max_retries ++
  " failed: " ++ err_string e.

(** The jitter drawn for a value [u] of [random.random()]. *)
Definition jitter_of (u : pyfloat) : pyfloat :=
  PyFloat.add (PyFloat.of_Z 0)
    (PyFloat.mul (PyFloat.sub (PyFloat.of_ratio false 7 10) (PyFloat.of_Z 0)) u).

Definition sleep_seconds (attempt : Z) (u : pyfloat) : pyfloat :=
  PyFloat.add (PyFloat.of_Z (Z.min (2 ^ attempt) 30)) (jitter_of u).

(** The durations slept, in order. *)
Definition slept (tr : list event) : list pyfloat :=
  flat_map (fun ev => match ev with Slept s => [s] | Printed _ => [] end) tr.

Definition exhausted (max_retries : Z) (last_err : option string) : exn :=
  mk_exn "RuntimeError"
    ("OpenAI call failed after " ++ str_of_int max_retries ++
     " attempts. Last error: " ++ str_of_last_err last_err).

Section RetryLoop.

Variable api : nat -> reply.
Variable rng : nat -> pyfloat.
Variables prompt_name symbol timeframe timestamp_utc notes : string.
Variable current_price : option pyfloat.
Variable max_retries : Z.

Let fill (data : Rec.t) : Rec.t :=
  fill_fields data prompt_name symbol timeframe timestamp_utc notes current_price.
Let attempt : M Rec.t :=
  attempt_once api prompt_name symbol timeframe timestamp_utc notes current_price.
Let loop : list Z -> option string -> M Rec.t :=
  retry_loop api rng prompt_name symbol timeframe timestamp_utc notes current_price
    max_retries.

(** The world after attempt number [a] failed with [e]: one more call, the
    line printed and, unless it was the last attempt, one draw and one
    sleep. *)
Definition after_failure (a : Z) (e : exn) (w : World) : World :=
  let printed := (trace w ++ [Printed (attempt_line max_retries a e)])%list in
  if (a <? max_retries - 1)%Z then
    mk_world (S (calls w)) (S (draws w))
      (printed ++ [Slept (sleep_seconds a (rng (draws w)))])
  else
    mk_world (S (calls w)) (draws w) printed.

Fixpoint after_failures (a : Z) (errs : list exn) (w : World) : World :=
  match errs with
  | [] => w
  | e :: rest => after_failures (a + 1) rest (after_failure a e w)
  end.

(** The replies from call number [c] on fail with [errs], in order. *)
Fixpoint fail_from (c : nat) (errs : list exn) : Prop :=
  match errs with
  | [] => True
  | e :: rest => failure_of (api c) = Some e /\ fail_from (S c) rest
  end.

Definition last_err_after (last_err : option string) (errs : list exn) : option string :=
  match rev errs with
  | [] => last_err
  | e :: _ => Some (err_string e)
  end.

Lemma attempt_fails e w :
  failure_of (api (calls w)) = Some e ->
  attempt w = (Raise e, mk_world (S (calls w)) (draws w) (trace w)).
Proof.
  unfold attempt, attempt_once, bind, chat_completions_create.
  destruct (api (calls w)) as [e' | [[msg | data] |]]; cbn; intro H;
    inversion H; reflexivity.
Qed.

Lemma attempt_succeeds data w :
  api (calls w) = Response (Some (Structured data)) ->
  attempt w = (Ok (fill data), mk_world (S (calls w)) (draws w) (trace w)).
Proof.
  unfold attempt, attempt_once, bind, chat_completions_create.
  intros ->. reflexivity.
Qed.

Lemma loop_step_failure a rest last_err e w :
  failure_of (api (calls w)) = Some e ->
  loop (a :: rest) last_err w = loop rest (Some (err_string e)) (after_failure a e w).
Proof.
  intro H. unfold loop. cbn [retry_loop]. unfold try_except.
  fold attempt. rewrite (attempt_fails e w H).
  unfold after_failure, bind, print.
  destruct (a <? max_retries - 1)%Z; reflexivity.
Qed.

Lemma loop_step_success a rest last_err data w :
  api (calls w) = Response (Some (Structured data)) ->
  loop (a :: rest) last_err w =
  (Ok (fill data), mk_world (S (calls w)) (draws w) (trace w)).
Proof.
  intro H. unfold loop. cbn [retry_loop]. unfold try_except.
  fold attempt. rewrite (attempt_succeeds data w H). reflexivity.
Qed.

Lemma loop_exhausted last_err w :
  loop [] last_err w = (Raise (exhausted max_retries last_err), w).
Proof. reflexivity. Qed.

Lemma calls_after_failures errs : forall a w,
  calls (after_failures a errs w) = (calls w + List.length errs)%nat.
Proof.
  induction errs as [|e errs IH]; intros a w; cbn [after_failures List.length].
  - lia.
  - rewrite IH. unfold after_failure.
    destruct (a <? max_retries - 1)%Z; cbn [calls]; lia.
Qed.

Lemma last_err_after_cons last_err e errs :
  last_err_after (Some (err_string e)) errs = last_err_after last_err (e :: errs).
Proof.
  unfold last_err_after. cbn [rev].
  destruct (rev errs) as [|e' l]; reflexivity.
Qed.

(** A run of failing attempts is skipped as a whole. *)
Lemma loop_failures errs : forall a rest last_err w,
  fail_from (calls w) errs ->
  loop (map Z.of_nat (seq a (List.length errs)) ++ rest)%list last_err w =
  loop rest (last_err_after last_err errs) (after_failures (Z.of_nat a) errs w).
Proof.
  induction errs as [|e errs IH]; intros a rest last_err w Hf.
  - reflexivity.
  - destruct Hf as [He Hrest]. cbn [List.length seq map app].
    rewrite (loop_step_failure _ _ _ e w He).
    rewrite IH.
    + rewrite (last_err_after_cons last_err). cbn [after_failures].
      replace (Z.of_nat (S a)) with (Z.of_nat a + 1) by lia. reflexivity.
    + unfold after_failure. destruct (Z.of_nat a <? max_retries - 1)%Z; exact Hrest.
Qed.

Lemma slept_app tr1 tr2 : slept (tr1 ++ tr2) = (slept tr1 ++ slept tr2)%list.
Proof. apply flat_map_app. Qed.

(** What the failed attempts [a], [a + 1], ... slept, when none of them is
    the last attempt of the budget. *)
Lemma slept_after_failures errs : forall a w,
  a + Z.of_nat (List.length errs) <= max_retries - 1 ->
  draws (after_failures a errs w) = (draws w + List.length errs)%nat /\
  slept (trace (after_failures a errs w)) =
  (slept (trace w) ++
   map (fun i => sleep_seconds (a + Z.of_nat i) (rng (draws w + i))) (seq 0 (List.length errs)))%list.
Proof.
  induction errs as [|e errs IH]; intros a w Hle; cbn [after_failures List.length].
  - cbn [seq map]. rewrite app_nil_r. split; [lia | reflexivity].
  - cbn [List.length] in Hle.
    destruct (IH (a + 1) (after_failure a e w) ltac:(lia)) as [Hd Hs].
    rewrite Hd, Hs. unfold after_failure.
    destruct (Z.ltb_spec a (max_retries - 1)) as [_ | Hge]; [|lia].
    cbn [draws trace]. split; [lia|].
    rewrite !slept_app. cbn [slept flat_map app].
    rewrite app_nil_r, <- app_assoc.
    f_equal. cbn [seq map app]. f_equal.
    + rewrite Z.add_0_r, Nat.add_0_r. reflexivity.
    + rewrite <- seq_shift, map_map. apply map_ext. intro i.
      f_equal; [lia | f_equal; lia].
Qed.

End RetryLoop.

Section RetryResults.

Variable api : nat -> reply.
Variable rng : nat -> pyfloat.
Variables prompt_name symbol timeframe timestamp_utc notes : string.
Variable current_price : option pyfloat.
Variable max_retries : Z.

Let fill (data : Rec.t) : Rec.t :=
  fill_fields data prompt_name symbol timeframe timestamp_utc notes current_price.
Let call : M Rec.t :=
  call_model_structured api rng prompt_name symbol timeframe timestamp_utc notes
    current_price max_retries.
Let loop : list Z -> option string -> M Rec.t :=
  retry_loop api rng prompt_name symbol timeframe timestamp_utc notes current_price
    max_retries.

Lemma after_failures_app errs1 : forall errs2 a w,
  after_failures rng max_retries a (errs1 ++ errs2) w =
  after_failures rng max_retries (a + Z.of_nat (List.length errs1)) errs2
    (after_failures rng max_retries a errs1 w).
Proof.
  induction errs1 as [|e errs1 IH]; intros errs2 a w; cbn [app after_failures List.length].
  - rewrite Z.add_0_r. reflexivity.
  - rewrite IH. f_equal. lia.
Qed.

Lemma fail_from_app errs1 : forall errs2 c,
  fail_from api c (errs1 ++ errs2) <->
  fail_from api c errs1 /\ fail_from api (c + List.length errs1) errs2.
Proof.
  induction errs1 as [|e errs1 IH]; intros errs2 c; cbn [app fail_from List.length].
  - rewrite Nat.add_0_r. tauto.
  - rewrite IH. replace (S c + List.length errs1)%nat with (c + S (List.length errs1))%nat by lia.
    tauto.
Qed.

(** The first structured reply ends the call, whatever failed before it. *)
Lemma call_returns_first_structured errs data w :
  Z.of_nat (List.length errs) < max_retries ->
  fail_from api (calls w) errs ->
  api (calls w + List.length errs) = Response (Some (Structured data)) ->
  let w1 := after_failures rng max_retries 0 errs w in
  call w = (Ok (fill data), mk_world (S (calls w1)) (draws w1) (trace w1)).
Proof.
  intros Hlt Hf Hok. cbv zeta. unfold call, call_model_structured, py_range.
  replace (Z.to_nat max_retries)
    with (List.length errs + S (Z.to_nat max_retries - S (List.length errs)))%nat by lia.
  rewrite seq_app, map_app. cbn [seq map].
  fold loop. unfold loop.
  rewrite (loop_failures api rng prompt_name symbol timeframe timestamp_utc notes
             current_price max_retries errs 0 _ None w Hf).
  apply loop_step_success.
  rewrite calls_after_failures. exact Hok.
Qed.

(** When every attempt of the budget fails the call raises, naming the
    last error. *)
Lemma call_raises_when_exhausted errs w :
  List.length errs = Z.to_nat max_retries ->
  fail_from api (calls w) errs ->
  call w = (Raise (exhausted max_retries (last_err_after None errs)),
            after_failures rng max_retries 0 errs w).
Proof.
  intros Hlen Hf. unfold call, call_model_structured, py_range.
  rewrite <- Hlen, <- (app_nil_r (map Z.of_nat (seq 0 (List.length errs)))).
  rewrite (loop_failures api rng prompt_name symbol timeframe timestamp_utc notes
             current_price max_retries errs 0 [] None w Hf).
  reflexivity.
Qed.

(** A successful call returns a filled reply of the service. *)
Lemma call_ok_is_filled r w w' :
  call w = (Ok r, w') ->
  exists data,
    api (Nat.pred (calls w')) = Response (Some (Structured data)) /\ r = fill data.
Proof.
  unfold call, call_model_structured.
  generalize (py_range max_retries) (@None string). intros attempts.
  revert w. induction attempts as [|a rest IH]; intros w last_err H.
  - discriminate H.
  - destruct (failure_of (api (calls w))) as [e|] eqn:E.
    + fold loop in H. unfold loop in H.
      rewrite (loop_step_failure api rng prompt_name symbol timeframe timestamp_utc
                 notes current_price max_retries a rest last_err e w E) in H.
      exact (IH _ _ H).
    + destruct (api (calls w)) as [e | [[msg | data] |]] eqn:R; try discriminate E.
      fold loop in H. unfold loop in H.
      rewrite (loop_step_success api rng prompt_name symbol timeframe timestamp_utc
                 notes current_price max_retries a rest last_err data w R) in H.
      inversion H; subst. exists data. split; [exact R | reflexivity].
Qed.

End RetryResults.

(** ** C7 *)

(** C7: every record the requester returns comes from a structured reply
    of the service, with prompt_name and current_price set from the caller,
    symbol, timeframe, timestamp_utc and raw_notes kept unless the model
    left them empty, entry_distance_pips recomputed from the model's entry
    and the reference price, and the seven other fields as the model gave
    them. *)
Theorem requester_fills_fields (api : nat -> reply) (rng : nat -> pyfloat)
  (prompt_name symbol timeframe timestamp_utc notes : string)
  (current_price : option pyfloat) (max_retries : Z) (w w' : World) (r : Rec.t) :
  call_model_structured api rng prompt_name symbol timeframe timestamp_utc notes
    current_price max_retries w = (Ok r, w') ->
  exists data,
    api (Nat.pred (calls w')) = Response (Some (Structured data)) /\
    filled_from data prompt_name symbol timeframe timestamp_utc notes current_price r.
Proof.
  intro H.
  destruct (call_ok_is_filled _ _ _ _ _ _ _ _ _ _ _ _ H) as (data & Hreply & ->).
  exists data. split; [exact Hreply | apply fill_fields_frame].
Qed.

Definition model_reply : Rec.t :=
  Rec.mk "" "15m" "" "BUY" (PyFloat.of_ratio false 8 10)
    (Some (PyFloat.of_ratio false 11050 10000)) (Some (PyFloat.of_ratio false 11020 10000))
    [PyFloat.of_ratio false 11080 10000] "trend" "below 1.1020" "made-up" "" 
    (Some (PyFloat.of_Z 7)) (Some (PyFloat.of_Z 7)).

Definition world0 : World := mk_world 0 0 [].

Lemma requester_fills_fields_witness :
  exists data,
    Response (Some (Structured model_reply)) = Response (Some (Structured data)) /\
    filled_from data "prompt1" "EURUSD" "5m" "2026-01-05T10:00:00+00:00" "notes"
      (Some price_1_1000)
      (Rec.mk "EURUSD" "15m" "2026-01-05T10:00:00+00:00" "BUY" (PyFloat.of_ratio false 8 10)
         (Some (PyFloat.of_ratio false 11050 10000))
         (Some (PyFloat.of_ratio false 11020 10000))
         [PyFloat.of_ratio false 11080 10000] "trend" "below 1.1020" "prompt1" "notes"
         (Some price_1_1000) (Some (PyFloat.of_ratio false 1 2))).
Proof.
  apply (requester_fills_fields (fun _ => Response (Some (Structured model_reply)))
           (fun _ => PyFloat.of_Z 0) "prompt1" "EURUSD" "5m"
           "2026-01-05T10:00:00+00:00" "notes" (Some price_1_1000) 5 world0
           (mk_world 1 0 [])).
  vm_compute. reflexivity.
Defined.

(** ** C6 *)

(** C6: with a budget of 5 attempts the requester returns the filled
    record of the first structured reply, after up to 4 failed attempts,
    and raises after 5 failures with the last error in its message; after
    failed attempt number i (from 0), the last of the budget excepted, it
    sleeps min(2^i, 30) seconds plus the jitter drawn, so 1, 2, 4 and 8
    plus jitter, and never over 30 plus jitter.  The cap is the 30 of
    [backoff_sleep]: its base is 2^i up to attempt 4 and 30 from attempt 5
    on, which shows in the sleeps of every larger budget. *)
Theorem five_attempt_budget (api : nat -> reply) (rng : nat -> pyfloat)
  (prompt_name symbol timeframe timestamp_utc notes : string)
  (current_price : option pyfloat) (w : World) :
  let call :=
    call_model_structured api rng prompt_name symbol timeframe timestamp_utc notes
      current_price 5 in
  (forall errs data,
     (List.length errs < 5)%nat ->
     fail_from api (calls w) errs ->
     api (calls w + List.length errs)%nat = Response (Some (Structured data)) ->
     exists w',
       call w = (Ok (fill_fields data prompt_name symbol timeframe timestamp_utc notes
                       current_price), w') /\
       calls w' = (calls w + List.length errs + 1)%nat /\
       slept (trace w') =
       (slept (trace w) ++
        map (fun i => sleep_seconds (Z.of_nat i) (rng (draws w + i)%nat))
          (seq 0 (List.length errs)))%list) /\
  (forall errs e,
     List.length errs = 4%nat ->
     fail_from api (calls w) (errs ++ [e]) ->
     exists w',
       call w = (Raise (mk_exn "RuntimeError"
                          ("OpenAI call failed after 5 attempts. Last error: " ++
                           err_string e)), w') /\
       calls w' = (calls w + 5)%nat /\
       slept (trace w') =
       (slept (trace w) ++
        map (fun i => sleep_seconds (Z.of_nat i) (rng (draws w + i)%nat)) (seq 0 4))%list) /\
  map (fun i => Z.min (2 ^ i) 30) [0; 1; 2; 3] = [1; 2; 4; 8] /\
  (forall i, 0 <= i -> 1 <= Z.min (2 ^ i) 30 <= 30) /\
  backoff_cap = 30 /\
  (forall attempt, 0 <= attempt ->
     backoff_base attempt = if (attempt <=? 4)%Z then 2 ^ attempt else 30) /\
  (forall attempt w0,
     backoff_sleep rng attempt w0 =
     (Ok tt,
      mk_world (calls w0) (S (draws w0))
        (trace w0 ++
         [Slept (PyFloat.add (PyFloat.of_Z (backoff_base attempt))
                   (jitter_of (rng (draws w0))))])%list)) /\
  (forall max_retries errs data,
     Z.of_nat (List.length errs) < max_retries ->
     fail_from api (calls w) errs ->
     api (calls w + List.length errs)%nat = Response (Some (Structured data)) ->
     exists w',
       call_model_structured api rng prompt_name symbol timeframe timestamp_utc notes
         current_price max_retries w =
       (Ok (fill_fields data prompt_name symbol timeframe timestamp_utc notes
              current_price), w') /\
       slept (trace w') =
       (slept (trace w) ++
        map (fun i => PyFloat.add (PyFloat.of_Z (backoff_base (Z.of_nat i)))
                        (jitter_of (rng (draws w + i)%nat)))
          (seq 0 (List.length errs)))%list).
Proof.
  cbv zeta. split; [|split; [|split; [|split; [|split; [|split; [|split]]]]]].
  - intros errs data Hlt Hf Hok.
    eexists. split.
    + apply (call_returns_first_structured api rng prompt_name symbol timeframe
               timestamp_utc notes current_price 5 errs data w);
        [lia | exact Hf | exact Hok].
    + cbn [calls trace]. rewrite calls_after_failures. split; [lia|].
      apply (slept_after_failures rng 5 errs 0 w). lia.
  - intros errs e Hlen Hf.
    eexists. split.
    + rewrite (call_raises_when_exhausted api rng prompt_name symbol timeframe
                 timestamp_utc notes current_price 5 (errs ++ [e]) w).
      * unfold last_err_after. rewrite rev_unit. reflexivity.
      * rewrite length_app, Hlen. reflexivity.
      * exact Hf.
    + rewrite calls_after_failures, length_app, Hlen. split; [reflexivity|].
      rewrite after_failures_app, Hlen. cbn [after_failures].
      unfold after_failure. cbn [Z.ltb Z.compare Z.add Z.sub Z.of_nat
        Pos.of_succ_nat Pos.succ Z.opp Z.pos_sub Pos.compare Pos.compare_cont trace].
      rewrite slept_app. cbn [slept flat_map app]. rewrite app_nil_r.
      fold (slept (trace (after_failures rng 5 0 errs w))).
      rewrite <- Hlen. apply (slept_after_failures rng 5 errs 0 w). lia.
  - reflexivity.
  - intros i Hi. assert (1 <= 2 ^ i) by (apply Z.lt_pred_le, Z.pow_pos_nonneg; lia). lia.
  - reflexivity.
  - intros attempt Ha. unfold backoff_base, backoff_cap.
    destruct (Z.leb_spec attempt 4) as [Hle | Hgt].
    + assert (2 ^ attempt <= 2 ^ 4) by (apply Z.pow_le_mono_r; lia).
      change (2 ^ 4) with 16 in *. lia.
    + assert (2 ^ 5 <= 2 ^ attempt) by (apply Z.pow_le_mono_r; lia).
      change (2 ^ 5) with 32 in *. lia.
  - intros attempt w0. reflexivity.
  - intros max_retries errs data Hlt Hf Hok.
    eexists. split.
    + apply (call_returns_first_structured api rng prompt_name symbol timeframe
               timestamp_utc notes current_price max_retries errs data w);
        [exact Hlt | exact Hf | exact Hok].
    + cbn [trace].
      apply (slept_after_failures rng max_retries errs 0 w). lia.
Qed.

(** Scenario E: four malformed replies and then a valid one; and a service
    that only sends empty replies. *)
Definition four_malformed_then_valid (n : nat) : reply :=
  match n with
  | 4%nat => Response (Some (Structured model_reply))
  | _ => Response (Some (Malformed "Expecting value: line 1 column 1 (char 0)"))
  end.

Definition always_empty (n : nat) : reply := Response None.

Definition half (n : nat) : pyfloat := PyFloat.of_ratio false 1 2.

Definition malformed_error : exn :=
  mk_exn "JSONDecodeError" "Expecting value: line 1 column 1 (char 0)".

Definition empty_error : exn :=
  mk_exn "ValueError" "Empty response from OpenAI API".

Definition six_malformed_then_valid (n : nat) : reply :=
  match n with
  | 6%nat => Response (Some (Structured model_reply))
  | _ => Response (Some (Malformed "Expecting value: line 1 column 1 (char 0)"))
  end.

Lemma five_attempt_budget_witness :
  let u := PyFloat.of_ratio false 1 2 in
  let naps := [sleep_seconds 0 u; sleep_seconds 1 u; sleep_seconds 2 u; sleep_seconds 3 u] in
  let nap base := PyFloat.add (PyFloat.of_Z base) (jitter_of u) in
  (exists w',
     call_model_structured four_malformed_then_valid half "prompt1" "EURUSD" "5m"
       "2026-01-05T10:00:00+00:00" "notes" (Some price_1_1000) 5 world0 =
     (Ok (fill_fields model_reply "prompt1" "EURUSD" "5m" "2026-01-05T10:00:00+00:00"
            "notes" (Some price_1_1000)), w') /\
     calls w' = 5%nat /\ slept (trace w') = naps) /\
  (exists w',
     call_model_structured always_empty half "prompt1" "EURUSD" "5m"
       "2026-01-05T10:00:00+00:00" "notes" (Some price_1_1000) 5 world0 =
     (Raise (mk_exn "RuntimeError"
               "OpenAI call failed after 5 attempts. Last error: ValueError: Empty response from OpenAI API"),
      w') /\
     calls w' = 5%nat /\ slept (trace w') = naps) /\
  (exists w',
     call_model_structured six_malformed_then_valid half "prompt1" "EURUSD" "5m"
       "2026-01-05T10:00:00+00:00" "notes" (Some price_1_1000) 7 world0 =
     (Ok (fill_fields model_reply "prompt1" "EURUSD" "5m" "2026-01-05T10:00:00+00:00"
            "notes" (Some price_1_1000)), w') /\
     slept (trace w') = [nap 1; nap 2; nap 4; nap 8; nap 16; nap 30]).
Proof.
  cbv zeta. split; [|split].
  - destruct (five_attempt_budget four_malformed_then_valid half "prompt1" "EURUSD" "5m"
                "2026-01-05T10:00:00+00:00" "notes" (Some price_1_1000) world0)
      as (Hok & _).
    apply (Hok [malformed_error; malformed_error; malformed_error; malformed_error]
             model_reply).
    + cbn. lia.
    + cbn. repeat split.
    + reflexivity.
  - destruct (five_attempt_budget always_empty half "prompt1" "EURUSD" "5m"
                "2026-01-05T10:00:00+00:00" "notes" (Some price_1_1000) world0)
      as (_ & Hex & _).
    apply (Hex [empty_error; empty_error; empty_error; empty_error] empty_error).
    + reflexivity.
    + cbn. repeat split.
  - destruct (five_attempt_budget six_malformed_then_valid half "prompt1" "EURUSD" "5m"
                "2026-01-05T10:00:00+00:00" "notes" (Some price_1_1000) world0)
      as (_ & _ & _ & _ & _ & _ & _ & Hany).
    apply (Hany 7 [malformed_error; malformed_error; malformed_error; malformed_error;
                   malformed_error; malformed_error] model_reply).
    + cbn. lia.
    + cbn. repeat split.
    + reflexivity.
Defined.

(** * Further properties of the pipeline *)

(** ** Floats: magnitude and sign of a difference *)

Lemma abs_binary_round_aux s1 s2 m e l :
  PyFloat.abs (binary_round_aux PyFloat.prec PyFloat.emax s1 m e l) =
  PyFloat.abs (binary_round_aux PyFloat.prec PyFloat.emax s2 m e l).
Proof.
  unfold binary_round_aux.
  destruct (shr_fexp _ _ m e l) as [mrs' e'].
  destruct (shr_fexp _ _ _ e' loc_Exact) as [mrs'' e''].
  destruct (shr_m mrs''); try reflexivity.
  destruct (Z.leb _ _); reflexivity.
Qed.

Lemma abs_binary_normalize_opp m e :
  PyFloat.abs (binary_normalize PyFloat.prec PyFloat.emax m e false) =
  PyFloat.abs (binary_normalize PyFloat.prec PyFloat.emax (- m) e false).
Proof.
  destruct m as [|m|m]; cbn [Z.opp binary_normalize]; try reflexivity;
    unfold binary_round; destruct (shl_align _ _ _); apply abs_binary_round_aux.
Qed.

Lemma abs_sub_comm x y : PyFloat.abs (PyFloat.sub x y) = PyFloat.abs (PyFloat.sub y x).
Proof.
  destruct x as [sx|sx| |sx mx ex], y as [sy|sy| |sy my ey];
    try (destruct sx, sy; reflexivity); try (destruct sx; reflexivity);
    try (destruct sy; reflexivity); try reflexivity.
  unfold PyFloat.sub, SFsub. rewrite (Z.min_comm ey ex).
  rewrite abs_binary_normalize_opp. f_equal. f_equal. lia.
Qed.

(** A float that is NaN or has its sign bit clear. *)
Definition unsigned_or_nan (x : pyfloat) : Prop :=
  match x with
  | S754_nan => True
  | S754_zero s | S754_infinity s | S754_finite s _ _ => s = false
  end.

Lemma unsigned_binary_round_aux m e l :
  unsigned_or_nan (binary_round_aux PyFloat.prec PyFloat.emax false m e l).
Proof.
  unfold binary_round_aux.
  destruct (shr_fexp _ _ m e l) as [mrs' e'].
  destruct (shr_fexp _ _ _ e' loc_Exact) as [mrs'' e''].
  destruct (shr_m mrs''); try exact I; try reflexivity.
  destruct (Z.leb _ _); reflexivity.
Qed.

Lemma unsigned_abs x : unsigned_or_nan (PyFloat.abs x).
Proof. destruct x; cbn; trivial. Qed.

Lemma unsigned_div x m e :
  unsigned_or_nan x -> unsigned_or_nan (PyFloat.div x (S754_finite false m e)).
Proof.
  destruct x as [s|s| |s mx ex]; cbn; intro H; try subst s; trivial.
  unfold PyFloat.div, SFdiv.
  destruct (SFdiv_core_binary _ _ _ _ _ _) as [[mz ez] lz].
  apply unsigned_binary_round_aux.
Qed.

Lemma unsigned_round2 x : unsigned_or_nan x -> unsigned_or_nan (PyFloat.round2 x).
Proof.
  destruct x as [s|s| |s m e]; cbn [PyFloat.round2 unsigned_or_nan]; trivial.
  intros ->. destruct (PyFloat.round_half_even _ _); try reflexivity.
  apply (unsigned_div (S754_finite false p 0)). reflexivity.
Qed.

Lemma unsigned_not_below_zero x :
  unsigned_or_nan x -> PyFloat.ltb x (PyFloat.of_Z 0) = false.
Proof. destruct x as [s|s| |s m e]; cbn; intro H; try subst s; reflexivity. Qed.

Lemma get_pip_value_finite symbol :
  exists m e, get_pip_value symbol = S754_finite false m e.
Proof.
  destruct pip_constants as (J & G & M).
  destruct (get_pip_value_range symbol) as [-> | [-> | ->]];
    [rewrite J | rewrite G | rewrite M]; eexists; eexists; reflexivity.
Qed.

(** ** Pip distance *)

(** X1: The pip distance does not depend on which of the two prices is the
    entry. *)
Theorem pip_distance_symmetric (a b : option pyfloat) (symbol : string) :
  calculate_pip_distance a b symbol = calculate_pip_distance b a symbol.
Proof.
  destruct a as [a|], b as [b|]; try reflexivity.
  unfold calculate_pip_distance. rewrite (abs_sub_comm a b). reflexivity.
Qed.

(** X2: A pip distance is never below zero: it is NaN or has a clear sign bit,
    and it is null exactly when the entry or the price is. *)
Theorem pip_distance_not_negative (entry price : option pyfloat) (symbol : string) :
  match calculate_pip_distance entry price symbol with
  | Some d => unsigned_or_nan d /\ PyFloat.ltb d (PyFloat.of_Z 0) = false /\
              entry <> None /\ price <> None
  | None => entry = None \/ price = None
  end.
Proof.
  destruct entry as [e|], price as [p|]; cbn [calculate_pip_distance]; auto.
  destruct (get_pip_value_finite symbol) as (m & ex & ->).
  assert (H : unsigned_or_nan
                (PyFloat.round2 (PyFloat.div (PyFloat.abs (PyFloat.sub e p))
                                   (S754_finite false m ex))))
    by apply unsigned_round2, unsigned_div, unsigned_abs.
  split; [exact H|]. split; [apply unsigned_not_below_zero, H|].
  split; discriminate.
Qed.

(** ** The validator as a decision table *)

(** X3: A record passes validation exactly when its signal is HOLD, or no
    reference price is known, or its entry is present, positive and at a
    pip distance that is not over 100. *)
Theorem valid_iff (result : Rec.t) (current_price : option pyfloat) (symbol : string) :
  Val.valid (validate_entry_price result current_price symbol) = true <->
  Rec.signal result = "HOLD" \/
  current_price = None \/
  exists entry price d,
    Rec.entry result = Some entry /\ current_price = Some price /\
    calculate_pip_distance (Some entry) (Some price) symbol = Some d /\
    over_100 d = false /\ non_positive entry = false.
Proof.
  destruct (String.eqb_spec (Rec.signal result) HOLD) as [H | H].
  { rewrite (validate_hold _ _ _ H). split; [now left | reflexivity]. }
  destruct current_price as [price|].
  2:{ rewrite (validate_no_price _ _ H). split; [now right; left | reflexivity]. }
  destruct (Rec.entry result) as [entry|] eqn:E.
  2:{ rewrite (validate_null_entry _ _ _ H E). split; [discriminate|].
      intros [Hh | [Hp | (e & p & d & He & _)]]; [now elim H | discriminate | discriminate]. }
  rewrite (validate_checked _ _ _ _ H E). cbv zeta.
  cbn [calculate_pip_distance check_too_far].
  set (d := PyFloat.round2 _).
  unfold check_non_positive.
  split.
  - intro Hv. right. right. exists entry, price, d.
    destruct (over_100 d) eqn:Hfar, (non_positive entry) eqn:Hneg;
      cbn in Hv; try discriminate Hv.
    repeat split.
  - intros [Hh | [Hp | (e & p & d' & He & Hp & Hd & Hfar & Hneg)]];
      [now elim H | discriminate |].
    injection He as <-. injection Hp as <-.
    cbn [calculate_pip_distance] in Hd. injection Hd as <-.
    fold d in Hfar. rewrite Hfar, Hneg. reflexivity.
Qed.

(** What the two checks leave behind: a reason exactly when the record is
    invalid, at least one and at most two warnings then, and an untouched
    signal otherwise. *)
Definition verdict_coherent (v : Val.t) : Prop :=
  (Val.valid v = false <-> Val.violation_reason v <> None) /\
  (Val.valid v = false -> Val.warnings v <> []) /\
  (List.length (Val.warnings v) <= 2)%nat /\
  (Val.valid v = true -> Val.final_signal v = Val.original_signal v).

(** X4: The verdict of the validator is coherent on every input: the reason is
    set exactly when valid is false, an invalid verdict carries one or two
    warnings, and a valid one keeps the signal. *)
Theorem validate_verdict_coherent
  (result : Rec.t) (current_price : option pyfloat) (symbol : string) :
  verdict_coherent (validate_entry_price result current_price symbol).
Proof.
  unfold verdict_coherent.
  destruct (String.eqb_spec (Rec.signal result) HOLD) as [H | H].
  { rewrite (validate_hold _ _ _ H). cbn.
    repeat split; try discriminate; try lia; intro C; now elim C. }
  destruct current_price as [price|].
  2:{ rewrite (validate_no_price _ _ H). cbn.
      repeat split; try discriminate; try lia; intro C; now elim C. }
  destruct (Rec.entry result) as [entry|] eqn:E.
  2:{ rewrite (validate_null_entry _ _ _ H E). cbn.
      repeat split; try discriminate; lia. }
  rewrite (validate_checked _ _ _ _ H E). cbv zeta.
  cbn [calculate_pip_distance check_too_far]. unfold check_non_positive.
  destruct (over_100 _), (non_positive entry); cbn;
    repeat split; try discriminate; try lia; intro C; now elim C.
Qed.

(** ** NaN *)

(** X5: A NaN entry is never rejected: every comparison with NaN is false, so
    a directional record whose entry is NaN stays valid, with a NaN
    distance and no warning. *)
Theorem nan_entry_passes (result : Rec.t) (price : pyfloat) (symbol : string) :
  Rec.signal result <> "HOLD" ->
  Rec.entry result = Some S754_nan ->
  validate_entry_price result (Some price) symbol =
  Val.mk true (Rec.signal result) (Rec.signal result) None (Some S754_nan)
    (Some price) [].
Proof.
  intros H E. rewrite (validate_checked _ _ _ _ H E). reflexivity.
Qed.

Lemma nan_entry_passes_witness :
  Val.valid (validate_entry_price (set_entry (Some S754_nan) buy_without_entry)
               (Some price_1_1000) "EURUSD") = true.
Proof.
  rewrite (nan_entry_passes (set_entry (Some S754_nan) buy_without_entry)
             price_1_1000 "EURUSD"); [reflexivity | discriminate | reflexivity].
Defined.

(** ** What is persisted *)

Lemma validate_valid_keeps_signal result current_price symbol :
  Val.valid (validate_entry_price result current_price symbol) = true ->
  Val.final_signal (validate_entry_price result current_price symbol) =
  Val.original_signal (validate_entry_price result current_price symbol).
Proof.
  destruct (String.eqb_spec (Rec.signal result) HOLD) as [H | H].
  { rewrite (validate_hold _ _ _ H). reflexivity. }
  destruct current_price as [price|].
  2:{ rewrite (validate_no_price _ _ H). reflexivity. }
  destruct (Rec.entry result) as [entry|] eqn:E.
  2:{ rewrite (validate_null_entry _ _ _ H E). discriminate. }
  rewrite (validate_checked _ _ _ _ H E). cbv zeta.
  cbn [calculate_pip_distance check_too_far]. unfold check_non_positive.
  destruct (over_100 _), (non_positive entry); cbn; try discriminate; reflexivity.
Qed.

(** X6: The signal written on a persisted record is the validation's
    final_signal; the key original_signal is added exactly when the
    validation is invalid, and then holds the model's signal. *)
Theorem persisted_signal_is_final (data : Rec.t)
  (prompt_name symbol timeframe timestamp_utc notes : string)
  (current_price : option pyfloat) :
  let out := pipeline data prompt_name symbol timeframe timestamp_utc notes current_price in
  exists v,
    Out.validation out = Some v /\
    Rec.signal (Out.record out) = Val.final_signal v /\
    Val.original_signal v = Rec.signal data /\
    Out.original_signal out = (if Val.valid v then None else Some (Rec.signal data)) /\
    (Val.valid v = false -> Rec.signal (Out.record out) = "HOLD").
Proof.
  cbv zeta. unfold pipeline. cbv zeta.
  set (result := fill_fields data prompt_name symbol timeframe timestamp_utc notes current_price).
  set (v := validate_entry_price result current_price symbol).
  destruct (validate_consistent result current_price symbol) as [Ho Hf].
  fold v in Ho, Hf.
  pose proof (validate_valid_keeps_signal result current_price symbol) as Hk.
  fold v in Hk.
  exists v. unfold apply_validation.
  destruct (Val.valid v) eqn:Hv; cbn.
  - rewrite (Hk eq_refl), Ho. repeat split; try discriminate.
  - rewrite Ho. repeat split; try (apply Hf; reflexivity).
Qed.

(** X7: A persisted record always passes a second validation against the same
    price and symbol: an override leaves HOLD, which is valid, and a valid
    record is left as it was. *)
Theorem persisted_record_revalidates (data : Rec.t)
  (prompt_name symbol timeframe timestamp_utc notes : string)
  (current_price : option pyfloat) :
  let out := pipeline data prompt_name symbol timeframe timestamp_utc notes current_price in
  Val.valid (validate_entry_price (Out.record out) current_price symbol) = true.
Proof.
  cbv zeta. unfold pipeline. cbv zeta.
  set (result := fill_fields data prompt_name symbol timeframe timestamp_utc notes current_price).
  destruct (validate_consistent result current_price symbol) as [_ Hf].
  unfold apply_validation.
  destruct (Val.valid (validate_entry_price result current_price symbol)) eqn:Hv;
    cbn [negb Out.record].
  - exact Hv.
  - rewrite validate_hold; [reflexivity|]. cbn. apply Hf. reflexivity.
Qed.

(** ** Symbol format, once more *)

Lemma six_characters s :
  String.length s = 6%nat ->
  exists c1 c2 c3 c4 c5 c6,
    s = String c1 (String c2 (String c3 (String c4 (String c5 (String c6 ""))))).
Proof.
  intro H.
  destruct s as [|c1 [|c2 [|c3 [|c4 [|c5 [|c6 [|c7 s]]]]]]]; try discriminate H.
  now exists c1, c2, c3, c4, c5, c6.
Qed.

Lemma format_symbol_length symbol :
  String.length (format_symbol_for_twelvedata symbol) =
  if (String.length symbol =? 6)%nat then 7%nat else String.length symbol.
Proof.
  destruct (Nat.eqb_spec (String.length symbol) 6) as [H | H].
  - rewrite (format_symbol_six symbol H).
    destruct (six_characters symbol H) as (c1 & c2 & c3 & c4 & c5 & c6 & ->).
    reflexivity.
  - now rewrite (format_symbol_other_length symbol H).
Qed.

(** X8: Formatting is idempotent: a symbol of six characters becomes one of
    seven, with the slash after the third, and every other symbol is
    returned as it is, so a second pass changes nothing. *)
Theorem format_symbol_idempotent (symbol : string) :
  format_symbol_for_twelvedata (format_symbol_for_twelvedata symbol) =
  format_symbol_for_twelvedata symbol /\
  (String.length symbol <> 6%nat -> format_symbol_for_twelvedata symbol = symbol) /\
  (String.length symbol = 6%nat ->
   String.length (format_symbol_for_twelvedata symbol) = 7%nat /\
   slice_to 3 (format_symbol_for_twelvedata symbol) = slice_to 3 symbol /\
   slice_from 3 (format_symbol_for_twelvedata symbol) = "/" ++ slice_from 3 symbol).
Proof.
  split; [|split].
  - apply format_symbol_other_length. rewrite format_symbol_length.
    destruct (String.length symbol =? 6)%nat eqn:E; [discriminate|].
    now apply Nat.eqb_neq.
  - apply format_symbol_other_length.
  - intro H. rewrite (format_symbol_six symbol H).
    destruct (six_characters symbol H) as (c1 & c2 & c3 & c4 & c5 & c6 & ->).
    repeat split.
Qed.

Lemma format_symbol_idempotent_witness :
  String.length "AUDJPY" = 6%nat /\
  slice_from 3 (format_symbol_for_twelvedata "AUDJPY") = "/JPY" /\
  format_symbol_for_twelvedata "EURUSDX" = "EURUSDX".
Proof.
  destruct (format_symbol_idempotent "AUDJPY") as (_ & _ & H6).
  destruct (format_symbol_idempotent "EURUSDX") as (_ & Hn & _).
  split; [reflexivity|]. split.
  - exact (proj2 (proj2 (H6 eq_refl))).
  - apply Hn. discriminate.
Defined.

(** ** Field filling, once more *)

(** X9: Filling is idempotent: a record that went through the requester's
    assignments is left unchanged by a second pass with the same caller
    values. *)
Theorem fill_fields_idempotent (data : Rec.t)
  (prompt_name symbol timeframe timestamp_utc notes : string)
  (current_price : option pyfloat) :
  let fill r :=
    fill_fields r prompt_name symbol timeframe timestamp_utc notes current_price in
  fill (fill data) = fill data.
Proof.
  cbv zeta. unfold fill_fields.
  cbn [Rec.prompt_name Rec.current_price Rec.symbol Rec.timeframe
       Rec.timestamp_utc Rec.raw_notes Rec.entry_distance_pips Rec.signal
       Rec.confidence Rec.entry Rec.stop Rec.targets Rec.rationale
       Rec.invalidation].
  assert (Hor : forall a b, str_or (str_or a b) b = str_or a b)
    by (intros [|c a] [|d b]; reflexivity).
  rewrite !Hor. reflexivity.
Qed.

(** ** The retry loop, for every budget *)

Section RetryBounds.

Variable api : nat -> reply.
Variable rng : nat -> pyfloat.
Variables prompt_name symbol timeframe timestamp_utc notes : string.
Variable current_price : option pyfloat.
Variable max_retries : Z.

Let loop : list Z -> option string -> M Rec.t :=
  retry_loop api rng prompt_name symbol timeframe timestamp_utc notes current_price
    max_retries.

(** The attempts of a list after which the loop may sleep. *)
Definition sleepers (attempts : list Z) : list Z :=
  filter (fun a => (a <? max_retries - 1)%Z) attempts.

(** What a run of the loop may have done to the world: calls made, and
    events appended, the sleeps among them each with one random draw. *)
Definition effort_within (budget naps : nat) (w w' : World) : Prop :=
  (calls w <= calls w' <= calls w + budget)%nat /\
  exists tr,
    trace w' = (trace w ++ tr)%list /\
    (List.length (slept tr) <= naps)%nat /\
    draws w' = (draws w + List.length (slept tr))%nat.

Lemma loop_effort attempts : forall last_err w,
  effort_within (List.length attempts) (List.length (sleepers attempts)) w
    (snd (loop attempts last_err w)).
Proof.
  induction attempts as [|a rest IH]; intros last_err w.
  - cbn. split; [lia|]. exists []. rewrite app_nil_r. cbn. repeat split; lia.
  - destruct (failure_of (api (calls w))) as [e|] eqn:E.
    + unfold loop.
      rewrite (loop_step_failure api rng prompt_name symbol timeframe timestamp_utc
                 notes current_price max_retries a rest last_err e w E).
      fold loop.
      set (w1 := after_failure rng max_retries a e w).
      destruct (IH (Some (err_string e)) w1) as (Hc & tr & Ht & Hn & Hd).
      set (w' := snd (loop rest (Some (err_string e)) w1)) in *.
      assert (Hc1 : calls w1 = S (calls w))
        by (unfold w1, after_failure; destruct (a <? max_retries - 1)%Z; reflexivity).
      cbn [sleepers filter List.length]. fold (sleepers rest).
      destruct (a <? max_retries - 1)%Z eqn:Ea.
      * assert (Hw1 : draws w1 = S (draws w) /\
                      trace w1 = ((trace w ++ [Printed (attempt_line max_retries a e)]) ++
                                  [Slept (sleep_seconds a (rng (draws w)))])%list)
          by (unfold w1, after_failure; rewrite Ea; split; reflexivity).
        destruct Hw1 as [Hd1 Ht1]. rewrite Hc1 in Hc. rewrite Hd1 in Hd.
        rewrite Ht1 in Ht. cbn [List.length].
        split; [lia|].
        exists ([Printed (attempt_line max_retries a e);
                 Slept (sleep_seconds a (rng (draws w)))] ++ tr)%list.
        rewrite Ht, <- !app_assoc. split; [reflexivity|].
        rewrite slept_app. cbn [slept flat_map app List.length]. split; lia.
      * assert (Hw1 : draws w1 = draws w /\
                      trace w1 = (trace w ++ [Printed (attempt_line max_retries a e)])%list)
          by (unfold w1, after_failure; rewrite Ea; split; reflexivity).
        destruct Hw1 as [Hd1 Ht1]. rewrite Hc1 in Hc. rewrite Hd1 in Hd.
        rewrite Ht1 in Ht.
        split; [lia|].
        exists ([Printed (attempt_line max_retries a e)] ++ tr)%list.
        rewrite Ht, <- !app_assoc. split; [reflexivity|].
        rewrite slept_app. cbn [slept flat_map app List.length]. split; lia.
    + destruct (api (calls w)) as [e | [[msg | data] |]] eqn:R; try discriminate E.
      unfold loop.
      rewrite (loop_step_success api rng prompt_name symbol timeframe timestamp_utc
                 notes current_price max_retries a rest last_err data w R).
      unfold effort_within. cbn [snd calls draws trace List.length].
      split; [lia|]. exists []. rewrite app_nil_r.
      cbn [slept flat_map List.length]. repeat split; lia.
Qed.

Lemma sleepers_of_range :
  (List.length (sleepers (py_range max_retries)) <= Z.to_nat max_retries - 1)%nat.
Proof.
  unfold py_range, sleepers.
  destruct (Z.to_nat max_retries) as [|n] eqn:En; [cbn; lia|].
  rewrite seq_S, map_app, filter_app, length_app. cbn [map filter Nat.add].
  destruct (Z.ltb_spec (Z.of_nat n) (max_retries - 1)) as [Hlt | _]; [lia|].
  cbn [List.length].
  pose proof (filter_length_le (fun a => (a <? max_retries - 1)%Z)
                (map Z.of_nat (seq 0 n))) as Hle.
  rewrite length_map, length_seq in Hle. lia.
Qed.

End RetryBounds.

(** X10: Whatever the service replies, one call of the requester makes at most
    max_retries requests, sleeps at most max_retries - 1 times, draws one
    random number per sleep and only appends to what was printed and
    slept before. *)
Theorem call_effort_bounded (api : nat -> reply) (rng : nat -> pyfloat)
  (prompt_name symbol timeframe timestamp_utc notes : string)
  (current_price : option pyfloat) (max_retries : Z) (w : World) :
  let w' := snd (call_model_structured api rng prompt_name symbol timeframe
                   timestamp_utc notes current_price max_retries w) in
  (calls w <= calls w' <= calls w + Z.to_nat max_retries)%nat /\
  exists tr,
    trace w' = (trace w ++ tr)%list /\
    (List.length (slept tr) <= Z.to_nat max_retries - 1)%nat /\
    draws w' = (draws w + List.length (slept tr))%nat.
Proof.
  cbv zeta. unfold call_model_structured.
  destruct (loop_effort api rng prompt_name symbol timeframe timestamp_utc notes
              current_price max_retries (py_range max_retries) None w)
    as (Hc & tr & Ht & Hn & Hd).
  pose proof (sleepers_of_range max_retries) as Hs.
  assert (Hlen : List.length (py_range max_retries) = Z.to_nat max_retries)
    by (unfold py_range; now rewrite length_map, length_seq).
  rewrite Hlen in Hc.
  split; [exact Hc|]. exists tr. repeat split; [exact Ht | lia | exact Hd].
Qed.

(** X11: With a budget of zero or less the requester raises at once, reporting
    "Last error: None", without a request, a sleep or a line printed. *)
Theorem no_budget_raises_at_once (api : nat -> reply) (rng : nat -> pyfloat)
  (prompt_name symbol timeframe timestamp_utc notes : string)
  (current_price : option pyfloat) (max_retries : Z) (w : World) :
  max_retries <= 0 ->
  call_model_structured api rng prompt_name symbol timeframe timestamp_utc notes
    current_price max_retries w =
  (Raise (mk_exn "RuntimeError"
            ("OpenAI call failed after " ++ str_of_int max_retries ++
             " attempts. Last error: None")), w).
Proof.
  intro H. unfold call_model_structured, py_range.
  replace (Z.to_nat max_retries) with 0%nat by lia. reflexivity.
Qed.

Lemma no_budget_raises_at_once_witness :
  call_model_structured four_malformed_then_valid half "prompt1" "EURUSD" "5m" "" ""
    None 0 world0 =
  (Raise (mk_exn "RuntimeError" "OpenAI call failed after 0 attempts. Last error: None"),
   world0).
Proof.
  apply (no_budget_raises_at_once four_malformed_then_valid half "prompt1" "EURUSD"
           "5m" "" "" None 0 world0).
  lia.
Defined.

(** * PromptRenderer *)

(** [s.replace(old, new)] for a non-empty [old]: the occurrences are found
    from the left and do not overlap.  [skip] counts the characters of a
    match that are still to be passed over. *)
Fixpoint replace_from (old new : string) (skip : nat) (s : string) : string :=
  match s with
  | EmptyString => EmptyString
  | String c rest =>
      match skip with
      | S k => replace_from old new k rest
      | O =>
          if prefix old s
          then new ++ replace_from old new (String.length old - 1) rest
          else String c (replace_from old new 0 rest)
      end
  end.

(** With an empty [old], Python puts [new] before every character and at
    the end. *)
Fixpoint interleave (new s : string) : string :=
  match s with
  | EmptyString => new
  | String c rest => new ++ String c (interleave new rest)
  end.

Definition str_replace (old new s : string) : string :=
  match old with
  | EmptyString => interleave new s
  | _ => replace_from old new 0 s
  end.

(** The placeholder ["{" + k + "}"]. *)
Definition placeholder (k : string) : string := "{" ++ k ++ "}".

(** [variables] is the dictionary in insertion order, each value already
    passed through [str]. *)
Definition render_prompt (template : string) (variables : list (string * string)) : string :=
  fold_left (fun out kv => str_replace (placeholder (fst kv)) (snd kv) out)
    variables template.

Lemma replace_absent old new s :
  contains old s = false -> replace_from old new 0 s = s.
Proof.
  induction s as [|c s IH]; [reflexivity|].
  cbn [contains replace_from]. intro H.
  apply orb_false_iff in H as [Hp Hc]. rewrite Hp, (IH Hc). reflexivity.
Qed.

Lemma replace_skips old new a : forall b,
  replace_from old new (String.length a) (a ++ b) = replace_from old new 0 b.
Proof.
  induction a as [|c a IH]; intro b; cbn [String.length append replace_from].
  - destruct b; reflexivity.
  - apply IH.
Qed.

Lemma prefix_append a b : prefix a (a ++ b) = true.
Proof.
  induction a as [|c a IH]; cbn.
  - destruct b; reflexivity.
  - destruct (ascii_dec c c) as [_ | N]; [exact IH | now elim N].
Qed.


(** A match at the very start. *)
Lemma replace_at_head c old' new rest :
  replace_from (String c old') new 0 (String c old' ++ rest) =
  new ++ replace_from (String c old') new 0 rest.
Proof.
  change (String c old' ++ rest) with (String c (old' ++ rest)).
  cbn [replace_from].
  change (String c (old' ++ rest)) with (String c old' ++ rest).
  rewrite prefix_append. f_equal.
  replace (String.length (String c old') - 1)%nat with (String.length old')
    by (cbn [String.length]; lia).
  apply replace_skips.
Qed.

(** Text without the first character of [old] is copied up to the match. *)
Lemma replace_after_plain c old' new pre : forall rest,
  contains (String c "") pre = false ->
  replace_from (String c old') new 0 (pre ++ rest) =
  pre ++ replace_from (String c old') new 0 rest.
Proof.
  induction pre as [|x pre IH]; intros rest H; [reflexivity|].
  cbn [contains] in H. apply orb_false_iff in H as [Hp Hc].
  cbn [append replace_from].
  assert (Hx : prefix (String c old') (String x (pre ++ rest)) = false).
  { cbn [prefix] in Hp |- *. destruct (ascii_dec c x) as [-> | _]; [|reflexivity].
    destruct pre; discriminate Hp. }
  rewrite Hx, (IH rest Hc). reflexivity.
Qed.

(** X12: A template in which no placeholder of the dictionary occurs is
    returned unchanged: an unmatched placeholder stays as it is, and no
    error is raised. *)
Theorem render_without_match (template : string) (variables : list (string * string)) :
  (forall k v, In (k, v) variables -> contains (placeholder k) template = false) ->
  render_prompt template variables = template.
Proof.
  unfold render_prompt. induction variables as [|[k v] rest IH]; intro H; [reflexivity|].
  cbn [fold_left fst snd].
  assert (Hk : str_replace (placeholder k) v template = template).
  { unfold str_replace, placeholder. cbn [append].
    apply replace_absent. apply (H k v). now left. }
  rewrite Hk. apply IH. intros k' v' Hin. apply (H k' v'). now right.
Qed.

Lemma render_without_match_witness :
  render_prompt "Analyse {SYMBOL} on {TIMEFRAME}." [("NOTES", "none"); ("PRICE", "1.1")] =
  "Analyse {SYMBOL} on {TIMEFRAME}.".
Proof.
  apply render_without_match.
  intros k v [H | [H | []]]; injection H as <- <-; reflexivity.
Defined.

(** X13: A placeholder that follows brace-free text is replaced by its value,
    and the text around it is kept. *)
Theorem render_one_placeholder (pre post k v : string) :
  contains "{" pre = false ->
  contains (placeholder k) post = false ->
  render_prompt (pre ++ placeholder k ++ post) [(k, v)] = pre ++ v ++ post.
Proof.
  intros Hpre Hpost. unfold render_prompt. cbn [fold_left fst snd].
  unfold str_replace, placeholder in *. cbn [append] in *.
  rewrite (replace_after_plain "{" (k ++ "}") v pre _ Hpre).
  change (String "{" ((k ++ "}") ++ post)) with (String "{" (k ++ "}") ++ post).
  rewrite replace_at_head, (replace_absent _ v post Hpost). reflexivity.
Qed.

Lemma render_one_placeholder_witness :
  render_prompt "Symbol: {SYMBOL} now" [("SYMBOL", "EURUSD")] = "Symbol: EURUSD now".
Proof.
  apply (render_one_placeholder "Symbol: " " now" "SYMBOL" "EURUSD"); reflexivity.
Defined.




Example str_replace_examples :
  str_replace "aa" "b" "aaa" = "ba" /\
  str_replace "" "-" "abc" = "-a-b-c-" /\
  str_replace "{X}" "" "{{X}X}" = "{X}".
Proof. repeat split. Qed.

(** * Study configuration *)

(** [os.getenv(name, default)] over an environment. *)
Definition getenv (env : string -> option string) (name default : string) : string :=
  match env name with
  | Some value => value
  | None => default
  end.

(** [s.split(sep)] for a separator of one character. *)
Fixpoint split_on (sep : ascii) (s : string) : list string :=
  match s with
  | EmptyString => [EmptyString]
  | String c rest =>
      if Ascii.eqb c sep then EmptyString :: split_on sep rest
      else match split_on sep rest with
           | piece :: pieces => String c piece :: pieces
           | [] => [String c EmptyString]
           end
  end.

(** The ASCII characters for which [str.isspace] holds: tab to carriage
    return, the four separators 28 to 31, and the space. *)
Definition is_space (c : ascii) : bool :=
  let n := nat_of_ascii c in
  ((9 <=? n)%nat && (n <=? 13)%nat) || ((28 <=? n)%nat && (n <=? 32)%nat).

Fixpoint lstrip (s : string) : string :=
  match s with
  | EmptyString => EmptyString
  | String c rest => if is_space c then lstrip rest else s
  end.

Fixpoint rstrip (s : string) : string :=
  match s with
  | EmptyString => EmptyString
  | String c rest =>
      match rstrip rest with
      | EmptyString => if is_space c then EmptyString else String c EmptyString
      | kept => String c kept
      end
  end.

(** [s.strip()]. *)
Definition strip (s : string) : string := rstrip (lstrip s).

Definition non_empty (s : string) : bool :=
  match s with
  | EmptyString => false
  | _ => true
  end.

Definition ALLOWED_SYMBOLS : list string := ["EURUSD"; "AUDJPY"].

Definition allowed (s : string) : bool := existsb (String.eqb s) ALLOWED_SYMBOLS.

(** The module-level names computed from the environment. *)
Record Config := mk_config {
  REQUESTED_SYMBOLS : list string;
  IGNORED_SYMBOLS : list string;
  SYMBOLS : list string;
  SYMBOL : string
}.

Definition configure (env : string -> option string) : Config :=
  let SYMBOLS_STR := getenv env "STUDY_SYMBOLS" "EURUSD,AUDJPY" in
  let requested := map strip (filter (fun s => non_empty (strip s)) (split_on "," SYMBOLS_STR)) in
  let ignored := filter (fun s => negb (allowed s)) requested in
  let symbols := filter allowed requested in
  match symbols with
  | [] =>
      let symbol := getenv env "STUDY_SYMBOL" "EURUSD" in
      mk_config requested ignored [symbol] symbol
  | first :: _ => mk_config requested ignored symbols first
  end.

(** ** Stripping and splitting *)

Fixpoint has_char (c : ascii) (s : string) : bool :=
  match s with
  | EmptyString => false
  | String x rest => Ascii.eqb x c || has_char c rest
  end.

Lemma contains_char c s : contains (String c "") s = has_char c s.
Proof.
  induction s as [|x s IH]; [reflexivity|].
  cbn [contains has_char prefix]. rewrite IH. f_equal.
  destruct (ascii_dec c x) as [-> | N].
  - rewrite Ascii.eqb_refl. destruct s; reflexivity.
  - symmetry. apply Ascii.eqb_neq. congruence.
Qed.

Lemma split_on_not_nil sep s : split_on sep s <> [].
Proof.
  destruct s as [|c s]; cbn; [discriminate|].
  destruct (Ascii.eqb c sep); [discriminate|].
  destruct (split_on sep s); discriminate.
Qed.

Lemma split_on_pieces sep s :
  Forall (fun piece => has_char sep piece = false) (split_on sep s).
Proof.
  induction s as [|c s IH]; cbn [split_on].
  - repeat constructor.
  - destruct (Ascii.eqb c sep) eqn:E.
    + constructor; [reflexivity | exact IH].
    + destruct (split_on sep s) as [|piece pieces]; [repeat constructor; cbn; now rewrite E|].
      inversion IH; subst. constructor; [cbn; now rewrite E | assumption].
Qed.

Lemma lstrip_keeps_absent c s : has_char c s = false -> has_char c (lstrip s) = false.
Proof.
  induction s as [|x s IH]; [reflexivity|]. cbn [lstrip]. intro H.
  destruct (is_space x); [|exact H].
  cbn in H. apply orb_false_iff in H. apply IH, H.
Qed.

Lemma rstrip_keeps_absent c s : has_char c s = false -> has_char c (rstrip s) = false.
Proof.
  induction s as [|x s IH]; [reflexivity|]. cbn [rstrip has_char]. intro H.
  apply orb_false_iff in H as [Hx Hs]. specialize (IH Hs).
  destruct (rstrip s) as [|y r].
  - destruct (is_space x); cbn; [reflexivity | now rewrite Hx].
  - cbn [has_char] in *. now rewrite Hx, IH.
Qed.

Lemma lstrip_head s :
  match lstrip s with
  | EmptyString => True
  | String c _ => is_space c = false
  end.
Proof.
  induction s as [|x s IH]; [exact I|]. cbn [lstrip].
  destruct (is_space x) eqn:E; [exact IH | exact E].
Qed.

Lemma rstrip_idempotent s : rstrip (rstrip s) = rstrip s.
Proof.
  induction s as [|x s IH]; [reflexivity|]. cbn [rstrip].
  destruct (rstrip s) as [|y r] eqn:E.
  - destruct (is_space x) eqn:Ex; [reflexivity|]. cbn. now rewrite Ex.
  - change (rstrip (String x (String y r)))
      with (match rstrip (String y r) with
            | EmptyString => if is_space x then EmptyString else String x EmptyString
            | kept => String x kept
            end).
    rewrite IH. reflexivity.
Qed.

Lemma rstrip_head s c rest :
  s = String c rest -> is_space c = false ->
  exists rest', rstrip s = String c rest'.
Proof.
  intros -> Hc. cbn [rstrip].
  destruct (rstrip rest); [rewrite Hc|]; eexists; reflexivity.
Qed.

Lemma strip_idempotent s : strip (strip s) = strip s.
Proof.
  unfold strip.
  pose proof (lstrip_head s) as Hh.
  destruct (lstrip s) as [|c rest] eqn:E; [reflexivity|].
  destruct (rstrip_head (String c rest) c rest eq_refl Hh) as (rest' & Hr).
  rewrite <- (rstrip_idempotent (String c rest)) at 2.
  rewrite Hr. cbn [lstrip]. rewrite Hh. reflexivity.
Qed.

(** ** The symbols of a run *)

(** X15: Every requested symbol is a non-empty piece of STUDY_SYMBOLS without
    surrounding whitespace and without a comma. *)
Theorem requested_symbols_clean (env : string -> option string) (s : string) :
  In s (REQUESTED_SYMBOLS (configure env)) ->
  s <> "" /\ strip s = s /\ contains "," s = false.
Proof.
  assert (Hreq : REQUESTED_SYMBOLS (configure env) =
                 map strip (filter (fun s => non_empty (strip s))
                              (split_on "," (getenv env "STUDY_SYMBOLS" "EURUSD,AUDJPY")))).
  { unfold configure. cbv zeta. destruct (filter allowed _); reflexivity. }
  rewrite Hreq. intro Hin.
  apply in_map_iff in Hin as (piece & <- & Hin).
  apply filter_In in Hin as [Hin Hne].
  split; [|split].
  - intro Hs. rewrite Hs in Hne. discriminate.
  - apply strip_idempotent.
  - rewrite contains_char. unfold strip.
    apply rstrip_keeps_absent, lstrip_keeps_absent.
    pose proof (split_on_pieces "," (getenv env "STUDY_SYMBOLS" "EURUSD,AUDJPY")) as Hall.
    rewrite Forall_forall in Hall. exact (Hall piece Hin).
Qed.

Definition env_mixed (name : string) : option string :=
  if String.eqb name "STUDY_SYMBOLS" then Some " AUDJPY , xauusd,,EURUSD "
  else None.

Lemma requested_symbols_clean_witness :
  REQUESTED_SYMBOLS (configure env_mixed) = ["AUDJPY"; "xauusd"; "EURUSD"] /\
  strip "xauusd" = "xauusd".
Proof.
  split; [reflexivity|].
  apply (requested_symbols_clean env_mixed "xauusd").
  right. left. reflexivity.
Defined.

Lemma filter_none_keeps_rest {A} (f : A -> bool) (l : list A) :
  filter f l = [] -> filter (fun x => negb (f x)) l = l.
Proof.
  induction l as [|x l IH]; [reflexivity|].
  cbn [filter]. destruct (f x); [discriminate|].
  cbn [negb]. intro E. f_equal. apply IH, E.
Qed.

(** X16: The list of symbols to process is never empty and SYMBOL is its first
    element; its members are the allowed requested symbols in the order of
    the request or, when no requested symbol is allowed, the single value
    of STUDY_SYMBOL (default "EURUSD"), which is not checked against the
    allowed set. *)
Theorem symbols_never_empty (env : string -> option string) :
  let c := configure env in
  let chosen := filter allowed (REQUESTED_SYMBOLS c) in
  SYMBOLS c <> [] /\
  hd_error (SYMBOLS c) = Some (SYMBOL c) /\
  (chosen <> [] -> SYMBOLS c = chosen /\ Forall (fun s => allowed s = true) (SYMBOLS c)) /\
  (chosen = [] -> SYMBOLS c = [getenv env "STUDY_SYMBOL" "EURUSD"] /\
                  IGNORED_SYMBOLS c = REQUESTED_SYMBOLS c).
Proof.
  cbv zeta. unfold configure. cbv zeta.
  set (requested := map strip _).
  destruct (filter allowed requested) as [|first rest] eqn:E;
    cbn [SYMBOLS SYMBOL REQUESTED_SYMBOLS IGNORED_SYMBOLS hd_error]; rewrite E.
  - split; [discriminate|]. split; [reflexivity|].
    split; [intro C; now elim C|]. intros _.
    split; [reflexivity | apply filter_none_keeps_rest, E].
  - split; [discriminate|]. split; [reflexivity|].
    split; [|discriminate]. intros _. split; [reflexivity|].
    rewrite <- E. apply Forall_forall. intros s Hs.
    apply filter_In in Hs. apply Hs.
Qed.

Definition env_unsupported (name : string) : option string :=
  if String.eqb name "STUDY_SYMBOLS" then Some "XAUUSD,GBPUSD"
  else if String.eqb name "STUDY_SYMBOL" then Some "XAUUSD"
  else None.

Lemma symbols_never_empty_witness :
  SYMBOLS (configure env_mixed) = ["AUDJPY"; "EURUSD"] /\
  SYMBOLS (configure env_unsupported) = ["XAUUSD"] /\
  IGNORED_SYMBOLS (configure env_unsupported) = ["XAUUSD"; "GBPUSD"].
Proof.
  destruct (symbols_never_empty env_mixed) as (_ & _ & Hsome & _).
  destruct (symbols_never_empty env_unsupported) as (_ & _ & _ & Hnone).
  split; [apply Hsome; discriminate|].
  split; [apply Hnone; reflexivity|].
  rewrite (proj2 (Hnone eq_refl)). reflexivity.
Defined.

(** X17: No requested symbol is lost or counted twice: each one is either
    allowed and among SYMBOLS, or not allowed and among IGNORED_SYMBOLS,
    and the two lists together are as long as the request unless the
    STUDY_SYMBOL fallback replaced an empty selection. *)
Theorem requested_symbols_partition (env : string -> option string) (s : string) :
  let c := configure env in
  (In s (REQUESTED_SYMBOLS c) ->
   (allowed s = true /\ In s (SYMBOLS c) /\ ~ In s (IGNORED_SYMBOLS c)) \/
   (allowed s = false /\ In s (IGNORED_SYMBOLS c))) /\
  (List.length (IGNORED_SYMBOLS c) + List.length (filter allowed (REQUESTED_SYMBOLS c)) =
   List.length (REQUESTED_SYMBOLS c))%nat.
Proof.
  cbv zeta. unfold configure. cbv zeta.
  set (requested := map strip _).
  assert (Hlen : (List.length (filter (fun s => negb (allowed s)) requested) +
                  List.length (filter allowed requested) = List.length requested)%nat).
  { clear. induction requested as [|x l IH]; [reflexivity|].
    cbn [filter]. destruct (allowed x); cbn [negb List.length]; lia. }
  assert (Hin : In s requested ->
                (allowed s = true /\ In s (filter allowed requested) /\
                 ~ In s (filter (fun s => negb (allowed s)) requested)) \/
                (allowed s = false /\ In s (filter (fun s => negb (allowed s)) requested))).
  { intro H. destruct (allowed s) eqn:A.
    - left. split; [reflexivity|]. split; [apply filter_In; auto|].
      intro C. apply filter_In in C as [_ C]. rewrite A in C. discriminate.
    - right. split; [reflexivity|]. apply filter_In. rewrite A. auto. }
  destruct (filter allowed requested) as [|first rest] eqn:E;
    cbn [SYMBOLS SYMBOL REQUESTED_SYMBOLS IGNORED_SYMBOLS]; rewrite ?E; split; auto.
  intro H. destruct (Hin H) as [(A & [] & _) | R]. now right.
Qed.

Lemma requested_symbols_partition_witness :
  In "xauusd" (IGNORED_SYMBOLS (configure env_mixed)).
Proof.
  destruct (requested_symbols_partition env_mixed "xauusd") as [H _].
  destruct H as [(A & _) | (_ & H)].
  - right. left. reflexivity.
  - discriminate A.
  - exact H.
Defined.

(** * The run: prompt files and the two loops of main *)

(** [safe_read_text]: a file system gives the text of the files that
    exist.  A file that exists but cannot be read or decoded is outside
    this model. *)
Definition safe_read_text (fs : string -> option string) (path : string) : result string :=
  match fs path with
  | None => Raise (mk_exn "FileNotFoundError" ("Prompt file not found: " ++ path))
  | Some text =>
      let content := strip text in
      match content with
      | EmptyString => Raise (mk_exn "ValueError" ("Prompt file is empty: " ++ path))
      | _ => Ok content
      end
  end.

Record PromptSpec := mk_prompt { name : string; path : string }.

(** [PROMPTS], the directory of the prompt files being a parameter. *)
Definition PROMPTS (prompts_dir : string) : list PromptSpec :=
  [mk_prompt "prompt1" (prompts_dir ++ "/prompt1.txt");
   mk_prompt "prompt2" (prompts_dir ++ "/prompt2.txt");
   mk_prompt "prompt3" (prompts_dir ++ "/prompt3.txt");
   mk_prompt "prompt4" (prompts_dir ++ "/prompt4.txt")].

(** A value or an exception, without effect. *)
Definition lift {A} (r : result A) : M A := fun w => (r, w).

Section Run.

Variable api : nat -> reply.
Variable rng : nat -> pyfloat.
(** The prompt files, and per symbol the price that
    [fetch_current_market_data] and the branch after it leave in
    [current_price]. *)
Variable fs : string -> option string.
Variable price_of : string -> option pyfloat.
Variables TIMEFRAME timestamp_utc NOTES : string.

(** The body of the inner [try] of [main], as far as it decides which
    requests are made and what is appended to [all_results]: the prompt is
    read, the model is called with the default budget of 5, the result is
    validated and the validation applied.  The rendered prompt does not
    show in the replies, which are given by call number; printing and the
    files written are left out. *)
Definition process_prompt (symbol : string) (current_price : option pyfloat)
  (spec : PromptSpec) : M Out.t :=
  template <- lift (safe_read_text fs (path spec)) ;;
  result <- call_model_structured api rng (name spec) symbol TIMEFRAME timestamp_utc
              NOTES current_price 5 ;;
  ret (apply_validation result (validate_entry_price result current_price symbol)).

(** [for spec in PROMPTS: ...], an exception ending the loop. *)
Fixpoint run_prompts (symbol : string) (current_price : option pyfloat)
  (specs : list PromptSpec) (all_results : list Out.t) : M (list Out.t) :=
  match specs with
  | [] => ret all_results
  | spec :: rest =>
      out <- process_prompt symbol current_price spec ;;
      run_prompts symbol current_price rest (all_results ++ [out])
  end.

(** [for symbol in SYMBOLS: ...]. *)
Fixpoint run_symbols (specs : list PromptSpec) (symbols : list string)
  (all_results : list Out.t) : M (list Out.t) :=
  match symbols with
  | [] => ret all_results
  | symbol :: rest =>
      all_results <- run_prompts symbol (price_of symbol) specs all_results ;;
      run_symbols specs rest all_results
  end.

End Run.

(** ** Prompt files *)

(** X18: A prompt file is read as its stripped text, which is never empty; a
    missing file raises FileNotFoundError and a file of whitespace only
    raises ValueError, both naming the path. *)
Theorem safe_read_text_cases (fs : string -> option string) (path : string) :
  match safe_read_text fs path with
  | Ok content =>
      content <> "" /\ strip content = content /\
      exists text, fs path = Some text /\ content = strip text
  | Raise e =>
      (fs path = None /\
       e = mk_exn "FileNotFoundError" ("Prompt file not found: " ++ path)) \/
      (exists text, fs path = Some text /\ strip text = "" /\
       e = mk_exn "ValueError" ("Prompt file is empty: " ++ path))
  end.
Proof.
  unfold safe_read_text. destruct (fs path) as [text|] eqn:F.
  - cbv zeta. destruct (strip text) as [|c rest] eqn:S.
    + right. exists text. repeat split. exact S.
    + split; [discriminate|]. split.
      * rewrite <- S. apply strip_idempotent.
      * exists text. split; [reflexivity | now rewrite S].
  - left. split; reflexivity.
Qed.

(** ** What a run returns *)

Section RunResults.

Variable api : nat -> reply.
Variable rng : nat -> pyfloat.
Variable fs : string -> option string.
Variable price_of : string -> option pyfloat.
Variables TIMEFRAME timestamp_utc NOTES : string.








End RunResults.



Definition prompt_files (path : string) : option string := Some "  Give a signal for {SYMBOL}.  ".

Definition price_known (symbol : string) : option pyfloat := Some price_1_1000.


(** X21: When the service fails five times in a row at the first prompt of the
    first symbol, the run stops there: it raises RuntimeError with the
    fifth error after exactly five requests, whatever symbols and prompts
    were still to come. *)
Theorem run_stops_when_budget_is_used_up (api : nat -> reply) (rng : nat -> pyfloat)
  (fs : string -> option string) (price_of : string -> option pyfloat)
  (TIMEFRAME timestamp_utc NOTES : string)
  (spec : PromptSpec) (specs : list PromptSpec)
  (symbol : string) (symbols : list string) (w : World) (content : string) :
  safe_read_text fs (path spec) = Ok content ->
  (forall i, (i < 5)%nat -> failure_of (api (calls w + i)%nat) <> None) ->
  exists last w',
    failure_of (api (calls w + 4)%nat) = Some last /\
    run_symbols api rng fs price_of TIMEFRAME timestamp_utc NOTES (spec :: specs)
      (symbol :: symbols) [] w =
    (Raise (mk_exn "RuntimeError"
              ("OpenAI call failed after 5 attempts. Last error: " ++ err_string last)),
     w') /\
    calls w' = (calls w + 5)%nat.
Proof.
  intros Hread Hfail.
  assert (Hsome : forall i, (i < 5)%nat -> exists e, failure_of (api (calls w + i)%nat) = Some e).
  { intros i Hi. specialize (Hfail i Hi).
    destruct (failure_of (api (calls w + i)%nat)) as [e|]; [now exists e | now elim Hfail]. }
  destruct (Hsome 0%nat ltac:(lia)) as (e0 & H0).
  destruct (Hsome 1%nat ltac:(lia)) as (e1 & H1).
  destruct (Hsome 2%nat ltac:(lia)) as (e2 & H2).
  destruct (Hsome 3%nat ltac:(lia)) as (e3 & H3).
  destruct (Hsome 4%nat ltac:(lia)) as (e4 & H4).
  assert (Hfrom : fail_from api (calls w) [e0; e1; e2; e3; e4]).
  { cbn [fail_from]. rewrite Nat.add_0_r in H0.
    replace (S (calls w)) with (calls w + 1)%nat by lia.
    replace (S (calls w + 1)) with (calls w + 2)%nat by lia.
    replace (S (calls w + 2)) with (calls w + 3)%nat by lia.
    replace (S (calls w + 3)) with (calls w + 4)%nat by lia.
    repeat split; assumption. }
  pose proof (call_raises_when_exhausted api rng (name spec) symbol TIMEFRAME
                timestamp_utc NOTES (price_of symbol) 5 [e0; e1; e2; e3; e4] w
                eq_refl Hfrom) as Hcall.
  exists e4. eexists. split; [exact H4|]. split.
  - cbn [run_symbols run_prompts]. unfold bind, process_prompt, bind, lift.
    rewrite Hread, Hcall. reflexivity.
  - rewrite calls_after_failures. reflexivity.
Qed.

Lemma run_stops_when_budget_is_used_up_witness :
  exists w',
    run_symbols always_empty half prompt_files price_known "5m"
      "2026-01-05T10:00:00+00:00" "" (PROMPTS "prompts") ["EURUSD"; "AUDJPY"] [] world0 =
    (Raise (mk_exn "RuntimeError"
              "OpenAI call failed after 5 attempts. Last error: ValueError: Empty response from OpenAI API"),
     w') /\
    calls w' = 5%nat.
Proof.
  destruct (run_stops_when_budget_is_used_up always_empty half prompt_files price_known
              "5m" "2026-01-05T10:00:00+00:00" "" (mk_prompt "prompt1" "prompts/prompt1.txt")
              (tl (PROMPTS "prompts")) "EURUSD" ["AUDJPY"] world0
              "Give a signal for {SYMBOL}.")
    as (last & w' & Hlast & Hrun & Hcalls).
  - reflexivity.
  - intros i _. discriminate.
  - injection Hlast as <-. exists w'. split; [exact Hrun | exact Hcalls].
Defined.

(** * Reports *)

(** ** The signal counters of the two reports *)

(** [sum(1 for r in results if r.get('signal') == s)]. *)
Definition count_signal (s : string) (results : list Out.t) : nat :=
  List.length (filter (fun r => String.eqb (Rec.signal (Out.record r)) s) results).

Definition in_enum (s : string) : bool :=
  String.eqb s "BUY" || String.eqb s "SELL" || String.eqb s "HOLD".

(** X22: The BUY, SELL and HOLD counters never add up to more than the number
    of results, and they add up to it exactly when every persisted signal
    is one of the three. *)
Theorem signal_counts_add_up (results : list Out.t) :
  let shown := (count_signal "BUY" results + count_signal "SELL" results +
                count_signal "HOLD" results)%nat in
  (shown <= List.length results)%nat /\
  (shown = List.length results <->
   Forall (fun r => in_enum (Rec.signal (Out.record r)) = true) results).
Proof.
  cbv zeta. unfold count_signal.
  induction results as [|r results [IHle IHeq]].
  - split; [cbn; lia|]. split; [constructor | reflexivity].
  - cbn [filter List.length].
    set (b := List.length (filter _ results)) in *.
    set (s := List.length (filter (fun r => (Rec.signal (Out.record r) =? "SELL")%string) results)) in *.
    set (h := List.length (filter (fun r => (Rec.signal (Out.record r) =? "HOLD")%string) results)) in *.
    assert (Hcase : (Rec.signal (Out.record r) = "BUY" \/ Rec.signal (Out.record r) = "SELL" \/
                     Rec.signal (Out.record r) = "HOLD") \/
                    in_enum (Rec.signal (Out.record r)) = false).
    { unfold in_enum.
      destruct (String.eqb_spec (Rec.signal (Out.record r)) "BUY"); [now left; left|].
      destruct (String.eqb_spec (Rec.signal (Out.record r)) "SELL"); [now left; right; left|].
      destruct (String.eqb_spec (Rec.signal (Out.record r)) "HOLD"); [now left; right; right|].
      now right. }
    destruct Hcase as [[E | [E | E]] | E].
    1-3: rewrite E; cbn [String.eqb Ascii.eqb Bool.eqb List.length]; split; [lia|];
      split; [intro H; constructor; [now rewrite E | apply IHeq; lia]
             | intro H; inversion H; subst; apply IHeq in H3; lia].
    unfold in_enum in E. apply orb_false_iff in E as [E E3].
    apply orb_false_iff in E as [E1 E2]. rewrite E1, E2, E3.
    split; [lia|]. split; [intro H; lia|].
    intro H. inversion H; subst. unfold in_enum in H2. rewrite E1, E2, E3 in H2.
    discriminate H2.
Qed.

(** ** Grouping by date *)

(** [timestamp.split('T')[0] if 'T' in timestamp else 'unknown']. *)
Definition date_of (timestamp : string) : string :=
  if contains "T" timestamp then hd EmptyString (split_on "T" timestamp)
  else "unknown".

Definition date_of_result (r : Out.t) : string :=
  date_of (Rec.timestamp_utc (Out.record r)).

(** One round of the loop on the dictionary [by_date], kept in insertion
    order. *)
Fixpoint add_result (date : string) (r : Out.t) (by_date : list (string * list Out.t))
  : list (string * list Out.t) :=
  match by_date with
  | [] => [(date, [r])]
  | (d, rs) :: rest =>
      if String.eqb d date then (d, (rs ++ [r])%list) :: rest
      else (d, rs) :: add_result date r rest
  end.

Definition group_by_date (results : list Out.t) : list (string * list Out.t) :=
  fold_left (fun by_date r => add_result (date_of_result r) r by_date) results [].

(** [by_date.get(date)]. *)
Fixpoint lookup (date : string) (by_date : list (string * list Out.t)) : option (list Out.t) :=
  match by_date with
  | [] => None
  | (d, rs) :: rest => if String.eqb d date then Some rs else lookup date rest
  end.

Definition on_date (date : string) (results : list Out.t) : list Out.t :=
  filter (fun r => String.eqb (date_of_result r) date) results.

Lemma lookup_add_result date r by_date d :
  lookup d (add_result date r by_date) =
  if String.eqb date d
  then Some (match lookup d by_date with Some rs => rs ++ [r] | None => [r] end)%list
  else lookup d by_date.
Proof.
  induction by_date as [|[k rs] rest IH]; cbn [add_result lookup].
  - destruct (String.eqb_spec date d); reflexivity.
  - destruct (String.eqb_spec k date) as [-> | Hk]; cbn [lookup].
    + destruct (String.eqb_spec date d); reflexivity.
    + destruct (String.eqb_spec k d) as [-> | Hd].
      * destruct (String.eqb_spec date d) as [-> | _]; [now elim Hk | reflexivity].
      * exact IH.
Qed.

Lemma keys_add_result date r by_date :
  map fst (add_result date r by_date) =
  if existsb (fun k => String.eqb k date) (map fst by_date) then map fst by_date
  else (map fst by_date ++ [date])%list.
Proof.
  induction by_date as [|[k rs] rest IH]; [reflexivity|].
  cbn [add_result map fst existsb].
  destruct (String.eqb k date); [reflexivity|].
  cbn [orb map fst]. rewrite IH.
  destruct (existsb _ (map fst rest)); reflexivity.
Qed.

Lemma sizes_add_result date r by_date :
  list_sum (map (fun kv => List.length (snd kv)) (add_result date r by_date)) =
  S (list_sum (map (fun kv => List.length (snd kv)) by_date)).
Proof.
  unfold list_sum.
  induction by_date as [|[k rs] rest IH]; [reflexivity|].
  cbn [add_result]. destruct (String.eqb k date); cbn [map fold_right snd].
  - rewrite length_app. cbn [List.length]. lia.
  - rewrite IH. lia.
Qed.

(** What the loop has built after the results [seen]. *)
Definition grouped (seen : list Out.t) (by_date : list (string * list Out.t)) : Prop :=
  NoDup (map fst by_date) /\
  list_sum (map (fun kv => List.length (snd kv)) by_date) = List.length seen /\
  forall d,
    lookup d by_date =
    match on_date d seen with
    | [] => None
    | rs => Some rs
    end.

Lemma grouped_step seen by_date r :
  grouped seen by_date ->
  grouped (seen ++ [r])%list (add_result (date_of_result r) r by_date).
Proof.
  intros (Hnd & Hsum & Hlook). split; [|split].
  - rewrite keys_add_result.
    destruct (existsb _ (map fst by_date)) eqn:E; [exact Hnd|].
    apply NoDup_app; [exact Hnd | repeat constructor; intros [] |].
    intros k Hk [Heq | []]. subst k.
    assert (existsb (fun k0 => String.eqb k0 (date_of_result r)) (map fst by_date) = true).
    { apply existsb_exists. exists (date_of_result r).
      split; [exact Hk | apply String.eqb_refl]. }
    congruence.
  - rewrite sizes_add_result, Hsum, length_app. cbn. lia.
  - intro d. rewrite lookup_add_result, Hlook. unfold on_date.
    rewrite filter_app. cbn [filter].
    destruct (String.eqb (date_of_result r) d).
    + destruct (filter _ seen); reflexivity.
    + rewrite app_nil_r. reflexivity.
Qed.

Lemma group_by_date_grouped results : grouped results (group_by_date results).
Proof.
  unfold group_by_date.
  assert (H : forall seen by_date,
             grouped seen by_date ->
             grouped (seen ++ results)%list
               (fold_left (fun by_date r => add_result (date_of_result r) r by_date)
                  results by_date)).
  { induction results as [|r results IH]; intros seen by_date Hg.
    - rewrite app_nil_r. exact Hg.
    - cbn [fold_left].
      replace (seen ++ r :: results)%list with ((seen ++ [r]) ++ results)%list
        by (rewrite <- app_assoc; reflexivity).
      apply IH, grouped_step, Hg. }
  apply (H [] []). split; [constructor|]. split; [reflexivity|]. reflexivity.
Qed.

(** X23: The overview groups without loss: under each date it lists exactly the
    results of that date in their order of arrival, a date without results
    is no key, no date is a key twice, and the group sizes add up to the
    number of results. *)
Theorem by_date_is_a_partition (results : list Out.t) :
  let by_date := group_by_date results in
  NoDup (map fst by_date) /\
  list_sum (map (fun kv => List.length (snd kv)) by_date) = List.length results /\
  (forall d rs, lookup d by_date = Some rs <-> rs <> [] /\ rs = on_date d results) /\
  (forall d, lookup d by_date = None <-> on_date d results = []).
Proof.
  cbv zeta. destruct (group_by_date_grouped results) as (Hnd & Hsum & Hlook).
  split; [exact Hnd|]. split; [exact Hsum|]. split.
  - intros d rs. rewrite Hlook. destruct (on_date d results) as [|x l].
    + split; [discriminate | intros [Hne ->]; now elim Hne].
    + split; [intro H; injection H as <-; split; [discriminate | reflexivity]
             | intros [_ ->]; reflexivity].
  - intro d. rewrite Hlook. destruct (on_date d results); split; try discriminate; reflexivity.
Qed.

Lemma split_on_first sep s :
  has_char sep s = true ->
  exists rest, s = hd EmptyString (split_on sep s) ++ String sep rest.
Proof.
  induction s as [|c s IH]; [discriminate|].
  cbn [has_char split_on]. destruct (Ascii.eqb_spec c sep) as [-> | Hc].
  - intros _. exists s. reflexivity.
  - cbn [orb]. intro H. destruct (IH H) as (rest & Hrest).
    pose proof (split_on_not_nil sep s) as Hn.
    destruct (split_on sep s) as [|piece pieces]; [now elim Hn|].
    cbn [hd] in *. exists rest. cbn [append]. now rewrite <- Hrest.
Qed.

(** X24: The date under which a result is filed never contains a "T": it is the
    text before the first "T" of the timestamp, or "unknown" when there is
    none. *)
Theorem date_of_has_no_T (timestamp : string) :
  contains "T" (date_of timestamp) = false /\
  (contains "T" timestamp = false -> date_of timestamp = "unknown") /\
  (contains "T" timestamp = true ->
   exists rest, timestamp = date_of timestamp ++ "T" ++ rest).
Proof.
  unfold date_of. split; [|split].
  - destruct (contains "T" timestamp); [|reflexivity].
    rewrite contains_char.
    pose proof (split_on_pieces "T" timestamp) as Hall.
    destruct (split_on "T" timestamp) as [|piece pieces]; [reflexivity|].
    inversion Hall; subst. assumption.
  - intros ->. reflexivity.
  - intro H. rewrite H. rewrite contains_char in H.
    destruct (split_on_first "T" timestamp H) as (rest & Hrest).
    exists rest. exact Hrest.
Qed.

Lemma date_of_has_no_T_witness :
  date_of "2026-01-05T10:00:00+00:00" = "2026-01-05" /\
  exists rest,
    "2026-01-05T10:00:00+00:00" = date_of "2026-01-05T10:00:00+00:00" ++ "T" ++ rest.
Proof.
  split; [reflexivity|].
  apply (date_of_has_no_T "2026-01-05T10:00:00+00:00"). reflexivity.
Defined.

(** ** The order of the rows *)

(** [sorted(l, key=...)]: Python's sort is stable, and the stable sorted
    arrangement of a list is unique, so it is the one that insertion from
    the right builds. *)
Fixpoint insert_row {A} (le : A -> A -> bool) (x : A) (l : list A) : list A :=
  match l with
  | [] => [x]
  | y :: rest => if le x y then x :: l else y :: insert_row le x rest
  end.

Definition py_sorted {A} (le : A -> A -> bool) (l : list A) : list A :=
  fold_right (insert_row le) [] l.

(** The key [(x.get("symbol", ""), x.get("prompt_name", ""))] and the
    order of Python on such pairs: the first components decide unless they
    are equal. *)
Definition row_key (r : Out.t) : string * string :=
  (Rec.symbol (Out.record r), Rec.prompt_name (Out.record r)).

Definition key_le (a b : string * string) : bool :=
  match String.compare (fst a) (fst b) with
  | Lt => true
  | Eq => String.leb (snd a) (snd b)
  | Gt => false
  end.

Definition key_eqb (a b : string * string) : bool :=
  String.eqb (fst a) (fst b) && String.eqb (snd a) (snd b).

Definition row_le (a b : Out.t) : bool := key_le (row_key a) (row_key b).

Definition sorted_results (results : list Out.t) : list Out.t := py_sorted row_le results.

Lemma string_compare_refl s : String.compare s s = Eq.
Proof.
  pose proof (String.compare_antisym s s) as H.
  destruct (String.compare s s); try reflexivity; discriminate H.
Qed.

Lemma key_le_total a b : key_le a b = false -> key_le b a = true.
Proof.
  unfold key_le, String.leb. rewrite (String.compare_antisym (fst b) (fst a)).
  rewrite (String.compare_antisym (snd b) (snd a)).
  destruct (String.compare (fst a) (fst b)); cbn; try discriminate; try reflexivity.
  destruct (String.compare (snd a) (snd b)); cbn; try discriminate; reflexivity.
Qed.

Lemma key_le_of_eq a b : key_eqb a b = true -> key_le a b = true.
Proof.
  unfold key_eqb, key_le. intro H. apply andb_true_iff in H as [H1 H2].
  apply String.eqb_eq in H1, H2. rewrite H1, H2, string_compare_refl.
  unfold String.leb. now rewrite string_compare_refl.
Qed.

Lemma insert_row_perm {A} (le : A -> A -> bool) x l :
  Permutation (insert_row le x l) (x :: l).
Proof.
  induction l as [|y l IH]; cbn [insert_row]; [reflexivity|].
  destruct (le x y); [reflexivity|].
  rewrite IH. apply perm_swap.
Qed.

Lemma insert_row_sorted x l :
  Sorted (fun a b => row_le a b = true) l ->
  Sorted (fun a b => row_le a b = true) (insert_row row_le x l).
Proof.
  induction l as [|y l IH]; intro Hs; cbn [insert_row].
  - repeat constructor.
  - destruct (row_le x y) eqn:E.
    + constructor; [exact Hs | constructor; exact E].
    + inversion Hs as [|? ? Hs' Hhd]; subst.
      constructor; [apply IH, Hs'|].
      apply key_le_total in E.
      destruct l as [|z l]; cbn [insert_row].
      * constructor. exact E.
      * destruct (row_le x z); constructor; [exact E|].
        inversion Hhd; subst. assumption.
Qed.

Lemma insert_row_stable k x l :
  filter (fun r => key_eqb (row_key r) k) (insert_row row_le x l) =
  filter (fun r => key_eqb (row_key r) k) (x :: l).
Proof.
  induction l as [|y l IH]; cbn [insert_row]; [reflexivity|].
  destruct (row_le x y) eqn:E; [reflexivity|].
  cbn [filter] in *. rewrite IH.
  destruct (key_eqb (row_key x) k) eqn:Ex, (key_eqb (row_key y) k) eqn:Ey; try reflexivity.
  assert (Hxy : key_eqb (row_key x) (row_key y) = true).
  { unfold key_eqb in *. apply andb_true_iff in Ex as [X1 X2], Ey as [Y1 Y2].
    apply String.eqb_eq in X1, X2, Y1, Y2. rewrite X1, X2, Y1, Y2, !String.eqb_refl.
    reflexivity. }
  apply key_le_of_eq in Hxy. unfold row_le in E. congruence.
Qed.

(** X25: The rows of a report are the results rearranged, none lost or added,
    in ascending order of (symbol, prompt_name), and results with the same
    symbol and prompt name keep the order in which they were produced. *)
Theorem sorted_results_spec (results : list Out.t) :
  Permutation (sorted_results results) results /\
  Sorted (fun a b => row_le a b = true) (sorted_results results) /\
  (forall k,
     filter (fun r => key_eqb (row_key r) k) (sorted_results results) =
     filter (fun r => key_eqb (row_key r) k) results).
Proof.
  unfold sorted_results, py_sorted.
  induction results as [|r results (Hperm & Hsorted & Hstable)]; cbn [fold_right].
  - repeat split; constructor.
  - split; [|split].
    + rewrite insert_row_perm. now constructor.
    + apply insert_row_sorted, Hsorted.
    + intro k. rewrite insert_row_stable. cbn [filter]. now rewrite Hstable.
Qed.
